(** * Verification of the C216 course projects

    Two Flask applications are embedded here:
    - [backend/sistema_faculdade.py], the student registry with its
      matriculation allocator [gerar_matricula];
    - [C216-PROJETO_FINAL/sistema_loja.py], the game store with its
      derived stock [copias_disponiveis], the session cart, the checkout
      [finalizar_compra] and the rental handlers.

    Tables are lists of rows in insertion order, a handler is a function
    from the request and the current state to the new state and the
    response, and a transaction that is not committed leaves the stored
    state as it was. *)

From Stdlib Require Import ZArith List String Ascii Bool Lia FinFun.
From Stdlib Require Import DecimalString DecimalZ DecimalFacts.
Import ListNotations.

Local Open Scope string_scope.
Local Open Scope Z_scope.

(* ================================================================= *)
(** ** Python builtins used by both applications *)

Module Py.

(** A [str] is the sequence of its characters; the functions below are
    those of Python on ASCII text.  Integers stay below the
    interpreter's limit on the number of decimal digits. *)

(** Characters for which [str.isspace] holds, among the ASCII ones:
    TAB, LF, VT, FF, CR, FS, GS, RS, US and the space. *)
Definition isspace (c : ascii) : bool :=
  let n := nat_of_ascii c in
  ((9 <=? n)%nat && (n <=? 13)%nat) || ((28 <=? n)%nat && (n <=? 32)%nat).

(** The whitespace [int] skips around a number: TAB, LF, VT, FF, CR and
    the space. *)
Definition c_isspace (c : ascii) : bool :=
  let n := nat_of_ascii c in
  ((9 <=? n)%nat && (n <=? 13)%nat) || (n =? 32)%nat.

Definition isdigit (c : ascii) : bool :=
  let n := nat_of_ascii c in
  (48 <=? n)%nat && (n <=? 57)%nat.

Fixpoint lstrip_by (p : ascii -> bool) (s : string) : string :=
  match s with
  | EmptyString => EmptyString
  | String c r => if p c then lstrip_by p r else s
  end.

Fixpoint rstrip_by (p : ascii -> bool) (s : string) : string :=
  match s with
  | EmptyString => EmptyString
  | String c r =>
      match rstrip_by p r with
      | EmptyString => if p c then EmptyString else String c EmptyString
      | r' => String c r'
      end
  end.

(** [s.strip()] *)
Definition strip (s : string) : string := rstrip_by isspace (lstrip_by isspace s).

Definition upper_char (c : ascii) : ascii :=
  let n := nat_of_ascii c in
  if ((97 <=? n)%nat && (n <=? 122)%nat)%bool then ascii_of_nat (n - 32) else c.

(** [s.upper()] on ASCII letters. *)
Fixpoint upper (s : string) : string :=
  match s with
  | EmptyString => EmptyString
  | String c r => String (upper_char c) (upper r)
  end.

(** [s.startswith(p)] *)
Definition startswith (s p : string) : bool := String.prefix p s.

(** [s[n:]] *)
Fixpoint slice_from (n : nat) (s : string) : string :=
  match n, s with
  | O, _ => s
  | S n', String _ r => slice_from n' r
  | S _, EmptyString => EmptyString
  end.

(** [str(n)] for an [int]: decimal digits, a leading minus sign for a
    negative number. *)
Definition str (n : Z) : string := NilZero.string_of_int (Z.to_int n).

(** The digits of an integer literal as [int] reads it in base ten:
    one or more digits, single underscores allowed between two digits.
    [prev] tells whether the previous character was a digit. *)
Fixpoint literal_digits (prev : bool) (s : string) : option string :=
  match s with
  | EmptyString => if prev then Some EmptyString else None
  | String c r =>
      if isdigit c then option_map (String c) (literal_digits true r)
      else if Ascii.eqb c "_" then
        if prev then literal_digits false r else None
      else None
  end.

Definition parse_nat (s : string) : option Z :=
  match literal_digits false s with
  | Some ds => option_map Z.of_uint (NilEmpty.uint_of_string ds)
  | None => None
  end.

(** [int(s)] for a [str]: surrounding whitespace is dropped, then an
    optional sign and the digits are read; [None] stands for
    [ValueError]. *)
Definition int (s : string) : option Z :=
  match rstrip_by c_isspace (lstrip_by c_isspace s) with
  | String c r =>
      if Ascii.eqb c "-" then option_map Z.opp (parse_nat r)
      else if Ascii.eqb c "+" then parse_nat r
      else parse_nat (String c r)
  | EmptyString => None
  end.

End Py.

(* ================================================================= *)
(** ** The request and the reply of a handler *)

Module Http.

Inductive Method := GET | POST.

(** [request.method] and [request.form], the form as the list of its
    fields in the order they were sent. *)
Record Request := mkRequest {
  method : Method;
  form : list (string * string)
}.

(** [request.form.get(k)]: the first value sent for the field. *)
Fixpoint form_get (f : list (string * string)) (k : string) : option string :=
  match f with
  | [] => None
  | (k', v) :: r => if String.eqb k' k then Some v else form_get r k
  end.

(** [request.form.get(k, d)] *)
Definition form_get_default (f : list (string * string)) (k d : string) : string :=
  match form_get f k with
  | Some v => v
  | None => d
  end.

(** Truth value of an optional form field: [None] and the empty string
    are false. *)
Definition truthy (o : option string) : bool :=
  match o with
  | Some (String _ _) => true
  | _ => false
  end.

(** What the handler returns: [redirect(url_for(endpoint, **arg))],
    [render_template(name)], or an exception that no handler caught. *)
Inductive Body :=
| Redirect (endpoint : string) (arg : option Z)
| Render (template : string)
| Unhandled (exception : string).

(** The reply: the messages passed to [flash] as (category, text), in
    the order of the calls, and the returned body. *)
Record Reply := mkReply {
  flashes : list (string * string);
  body : Body
}.

Definition flash_redirect (category text endpoint : string) : Reply :=
  mkReply [(category, text)] (Redirect endpoint None).

End Http.

(* ================================================================= *)
(** ** backend/sistema_faculdade.py *)

Module Faculdade.
Import Http.

Record Aluno := mkAluno {
  id : Z;
  nome : string;
  email : string;
  curso : string;
  matricula : string
}.

(** The table [alunos], rows in insertion order. *)
Definition DB := list Aluno.

Definition CURSOS_VALIDOS : list string := ["GEC"; "GEA"; "GES"; "GEB"; "GET"].

Definition curso_valido (c : string) : bool :=
  existsb (String.eqb c) CURSOS_VALIDOS.

(** Of the row kept so far and the next row, the one with the greater
    primary key. *)
Definition pick (best : option Aluno) (a : Aluno) : option Aluno :=
  match best with
  | None => Some a
  | Some b => if id b <? id a then Some a else Some b
  end.

(** [.order_by(Aluno.id.desc()).first()]: the row with the greatest
    primary key, if there is a row. *)
Definition first_by_id_desc (rows : list Aluno) : option Aluno :=
  fold_left pick rows None.

Definition do_curso (c : string) (a : Aluno) : bool := String.eqb (curso a) c.

(** The value of [proximo] in [gerar_matricula]: one more than the
    number read after the course code in the matriculation of the
    latest student of the course; one when there is no such student,
    when the code is not at the front, or when [int] raises
    [ValueError]. *)
Definition proximo (db : DB) (curso : string) : Z :=
  let ultimo := first_by_id_desc (filter (do_curso curso) db) in
  match ultimo with
  | Some u =>
      if Py.startswith (matricula u) curso then
        let numero_atual :=
          match Py.int (Py.slice_from (String.length curso) (matricula u)) with
          | Some n => n
          | None => 0
          end in
        numero_atual + 1
      else 1
  | None => 1
  end.

(** [gerar_matricula(db, curso)] *)
Definition gerar_matricula (db : DB) (curso : string) : string :=
  curso ++ Py.str (proximo db curso).

(** The key the engine gives to a new row: above every key of the
    table. *)
Definition next_id (db : DB) : Z := 1 + fold_right Z.max 0 (map id db).

(** The two [unique=True] columns. *)
Definition unique_ok (db : DB) (a : Aluno) : bool :=
  forallb
    (fun b => negb (String.eqb (email b) (email a))
              && negb (String.eqb (matricula b) (matricula a)))
    db.

(** The database as one request meets it: [fault] is the text of an
    exception that the engine raises at commit for a reason of its own
    (connection lost, value too long for its column), [None] when it
    raises none. *)
Record Env := mkEnv { fault : option string }.

(** [db.add(aluno); db.commit()]: the new table, or the text of the
    exception. *)
Definition add_commit (env : Env) (db : DB) (a : Aluno) : DB + string :=
  match fault env with
  | Some e => inr e
  | None =>
      if unique_ok db a then inl (db ++ [a])%list
      else inr "IntegrityError"
  end.

(** [novo_aluno()] *)
Definition novo_aluno (env : Env) (req : Request) (db : DB) : DB * Reply :=
  match method req with
  | POST =>
      let nome := Py.strip (form_get_default (form req) "nome" "") in
      let email := Py.strip (form_get_default (form req) "email" "") in
      let curso := Py.upper (Py.strip (form_get_default (form req) "curso" "")) in
      if String.eqb nome "" || String.eqb email "" || String.eqb curso "" then
        (db, flash_redirect "error" "Preencha todos os campos." "novo_aluno")
      else if negb (curso_valido curso) then
        (db, flash_redirect "error"
               "Curso inválido! Use GEC, GEA, GES, GEB ou GET." "novo_aluno")
      else
        let matricula := gerar_matricula db curso in
        let aluno := mkAluno (next_id db) nome email curso matricula in
        match add_commit env db aluno with
        | inl db' =>
            (db', flash_redirect "success"
                    ("Aluno " ++ nome ++ " cadastrado com sucesso! Matrícula: "
                       ++ matricula)
                    "listar_alunos")
        | inr e =>
            (db, flash_redirect "error" ("Erro ao cadastrar aluno: " ++ e)
                   "listar_alunos")
        end
  | GET => (db, mkReply [] (Render "alunos_form.html"))
  end.

(** Registrations handled one after the other. *)
Fixpoint registrar_todos (rs : list (Env * Request)) (db : DB) : DB :=
  match rs with
  | [] => db
  | (env, req) :: rest => registrar_todos rest (fst (novo_aluno env req db))
  end.

(** The matriculations held by the students of a course, oldest first. *)
Definition matriculas_do_curso (c : string) (db : DB) : list string :=
  map matricula (filter (do_curso c) db).

(** [db.query(Aluno).filter(Aluno.id == n).first()] *)
Definition get_aluno (db : DB) (n : Z) : option Aluno :=
  find (fun a => id a =? n) db.

(** The two [unique=True] columns at an [UPDATE]: no other row holds
    the e-mail or the matriculation of the written row. *)
Definition unique_ok_update (db : DB) (a : Aluno) : bool :=
  forallb
    (fun b => (id b =? id a)
              || (negb (String.eqb (email b) (email a))
                  && negb (String.eqb (matricula b) (matricula a))))
    db.

(** [db.commit()] after the attributes of [a] were assigned: the row is
    found by its primary key. *)
Definition update_commit (env : Env) (db : DB) (a : Aluno) : DB + string :=
  match fault env with
  | Some e => inr e
  | None =>
      if unique_ok_update db a
      then inl (map (fun r => if id r =? id a then a else r) db)
      else inr "IntegrityError"
  end.

(** [editar_aluno(aluno_id)].  The success message is flashed before
    the commit, so a commit that fails adds its error message after
    it.  The session does not flush before a query, so
    [gerar_matricula] reads the table as it is stored. *)
Definition editar_aluno (env : Env) (aluno_id : Z) (req : Request) (db : DB)
  : DB * Reply :=
  match get_aluno db aluno_id with
  | None => (db, flash_redirect "error" "Aluno não encontrado." "listar_alunos")
  | Some aluno =>
      match method req with
      | POST =>
          let nome := Py.strip (form_get_default (form req) "nome" "") in
          let email := Py.strip (form_get_default (form req) "email" "") in
          let curso := Py.upper (Py.strip (form_get_default (form req) "curso" "")) in
          if String.eqb nome "" || String.eqb email "" || String.eqb curso "" then
            (db, mkReply [("error", "Preencha todos os campos.")]
                   (Redirect "editar_aluno" (Some aluno_id)))
          else if negb (curso_valido curso) then
            (db, mkReply [("error", "Curso inválido! Use GEC, GEA, GES, GEB ou GET.")]
                   (Redirect "editar_aluno" (Some aluno_id)))
          else
            let mudou := negb (String.eqb curso (Faculdade.curso aluno)) in
            let novo :=
              if mudou
              then mkAluno (id aluno) nome email curso (gerar_matricula db curso)
              else mkAluno (id aluno) nome email (Faculdade.curso aluno)
                           (matricula aluno) in
            let sucesso :=
              if mudou then "Aluno atualizado com nova matrícula."
              else "Aluno atualizado." in
            match update_commit env db novo with
            | inl db' =>
                (db', mkReply [("success", sucesso)] (Redirect "listar_alunos" None))
            | inr e =>
                (db, mkReply [("success", sucesso);
                              ("error", "Erro ao atualizar aluno: " ++ e)]
                       (Redirect "listar_alunos" None))
            end
      | GET => (db, mkReply [] (Render "alunos_form.html"))
      end
  end.

(** [deletar_aluno(aluno_id)] *)
Definition deletar_aluno (env : Env) (aluno_id : Z) (db : DB) : DB * Reply :=
  match get_aluno db aluno_id with
  | None => (db, flash_redirect "error" "Aluno não encontrado." "listar_alunos")
  | Some aluno =>
      match fault env with
      | Some e =>
          (db, flash_redirect "error" ("Erro ao remover aluno: " ++ e)
                 "listar_alunos")
      | None =>
          (filter (fun r => negb (id r =? id aluno)) db,
           flash_redirect "success" "Aluno removido com sucesso!" "listar_alunos")
      end
  end.

(** The three routes that write, and requests served one after the
    other. *)
Inductive Chamada :=
| NovoAluno (req : Request)
| EditarAluno (aluno_id : Z) (req : Request)
| DeletarAluno (aluno_id : Z).

Definition atender (env : Env) (c : Chamada) (db : DB) : DB * Reply :=
  match c with
  | NovoAluno req => novo_aluno env req db
  | EditarAluno aluno_id req => editar_aluno env aluno_id req db
  | DeletarAluno aluno_id => deletar_aluno env aluno_id db
  end.

Fixpoint atender_todas (cs : list (Env * Chamada)) (db : DB) : DB :=
  match cs with
  | [] => db
  | (env, c) :: rest => atender_todas rest (fst (atender env c db))
  end.

End Faculdade.

(* ================================================================= *)
(** ** A Python [dict]: entries in insertion order, keys distinct *)

Module Dict.
Section Ops.
Context {K V : Type} (eqb : K -> K -> bool).

Definition t := list (K * V).

(** [d.get(k)] *)
Fixpoint get (d : t) (k : K) : option V :=
  match d with
  | [] => None
  | (k', v) :: r => if eqb k' k then Some v else get r k
  end.

(** [k in d] *)
Definition mem (d : t) (k : K) : bool :=
  match get d k with
  | Some _ => true
  | None => false
  end.

(** [d[k] = v]: a key already present keeps its place. *)
Fixpoint set (d : t) (k : K) (v : V) : t :=
  match d with
  | [] => [(k, v)]
  | (k', v') :: r => if eqb k' k then (k', v) :: r else (k', v') :: set r k v
  end.

(** [del d[k]] *)
Fixpoint del (d : t) (k : K) : t :=
  match d with
  | [] => []
  | (k', v') :: r => if eqb k' k then r else (k', v') :: del r k
  end.

(** [{k: v for (k, v) in l}] *)
Definition of_list (l : list (K * V)) : t :=
  fold_left (fun d kv => set d (fst kv) (snd kv)) l [].
End Ops.
End Dict.

(* ================================================================= *)
(** ** C216-PROJETO_FINAL/sistema_loja.py *)

Module Loja.
Import Http.

(** A [datetime.date], as its ordinal. *)
Definition date := Z.

Module Jogo.
Record t := mk {
  id : Z;
  titulo : string;
  genero : string;
  ano_lancamento : Z;
  plataformas : string;
  desenvolvedora : string;
  copias_total : Z
}.

(** The object after [jogo.copias_total = n]. *)
Definition with_copias_total (j : t) (n : Z) : t :=
  mk (id j) (titulo j) (genero j) (ano_lancamento j) (plataformas j)
     (desenvolvedora j) n.
End Jogo.

Module Cliente.
Record t := mk {
  id : Z;
  nome : string;
  telefone : string;
  cpf : string;
  endereco : string
}.
End Cliente.

Module Locacao.
Record t := mk {
  id : Z;
  cliente_id : Z;
  jogo_id : Z;
  data_retirada : date;
  data_devolucao_prevista : option date;
  data_devolucao_real : option date;
  status : string
}.

(** The object after [loc.status = s] and
    [loc.data_devolucao_real = d]. *)
Definition with_devolucao (l : t) (s : string) (d : option date) : t :=
  mk (id l) (cliente_id l) (jogo_id l) (data_retirada l)
     (data_devolucao_prevista l) d s.
End Locacao.

Module Pedido.
Record t := mk {
  id : Z;
  cliente_id : Z;
  data : date;
  status : string
}.
End Pedido.

Module ItemPedido.
Record t := mk {
  id : Z;
  pedido_id : Z;
  jogo_id : Z;
  quantidade : Z
}.
End ItemPedido.

(** The five tables, rows in insertion order. *)
Record DB := mkDB {
  jogos : list Jogo.t;
  clientes : list Cliente.t;
  locacoes : list Locacao.t;
  pedidos : list Pedido.t;
  itens_pedido : list ItemPedido.t
}.

(** [session["cart"]]: a mapping from the game identifier, as a string,
    to the quantity, in the order the session hands its entries out. *)
Definition Session := Dict.t (K := string) (V := Z).

(** The cart of the handlers, [{jogo_id: quantidade}]. *)
Definition Cart := Dict.t (K := Z) (V := Z).

Record State := mkState {
  db : DB;
  session_cart : Session
}.

(** What one request meets outside the stored state: [date.today()]
    and, in [fault], the text of an exception that the engine raises
    inside the handler's [try] block for a reason of its own ([None]
    when it raises none). *)
Record Env := mkEnv {
  today : date;
  fault : option string
}.

(** The key the engine gives to a new row, above every key of the
    table. *)
Definition next_id (ids : list Z) : Z := 1 + fold_right Z.max 0 ids.

(** *** Derived stock *)

(** [jogo.locacoes] *)
Definition locacoes_do_jogo (d : DB) (j : Jogo.t) : list Locacao.t :=
  filter (fun l => Locacao.jogo_id l =? Jogo.id j) (locacoes d).

Definition alugado (l : Locacao.t) : bool :=
  String.eqb (Locacao.status l) "ALUGADO".

(** [sum(1 for loc in self.locacoes if loc.status == "ALUGADO")] *)
Definition alugados (d : DB) (j : Jogo.t) : Z :=
  fold_left Z.add (map (fun _ => 1) (filter alugado (locacoes_do_jogo d j))) 0.

(** [Jogo.copias_disponiveis] *)
Definition copias_disponiveis (d : DB) (j : Jogo.t) : Z :=
  Jogo.copias_total j - alugados d j.

(** *** The cart in the session *)

Fixpoint int_keys (l : list (string * Z)) : option (list (Z * Z)) :=
  match l with
  | [] => Some []
  | (k, v) :: r =>
      match Py.int k with
      | Some n => option_map (cons (n, v)) (int_keys r)
      | None => None
      end
  end.

(** [get_cart()]; [None] when [int(k)] raises [ValueError]. *)
Definition get_cart (s : Session) : option Cart :=
  option_map (Dict.of_list Z.eqb) (int_keys s).

(** The value [save_cart(cart)] stores in the session. *)
Definition save_cart (cart : Cart) : Session :=
  Dict.of_list String.eqb (map (fun kv => (Py.str (fst kv), snd kv)) cart).

(** [adicionar_ao_carrinho(jogo_id)] *)
Definition adicionar_ao_carrinho (jogo_id : Z) (req : Request) (st : State)
  : State * Reply :=
  match get_cart (session_cart st) with
  | None => (st, mkReply [] (Unhandled "ValueError"))
  | Some cart =>
      let parsed :=
        match form_get (form req) "quantidade" with
        | Some s => Py.int s
        | None => Some 1
        end in
      match parsed with
      | None => (st, mkReply [] (Unhandled "ValueError"))
      | Some qtd =>
          let qtd := if qtd <=? 0 then 1 else qtd in
          let atual :=
            match Dict.get Z.eqb cart jogo_id with
            | Some q => q
            | None => 0
            end in
          let cart := Dict.set Z.eqb cart jogo_id (atual + qtd) in
          (mkState (db st) (save_cart cart),
           flash_redirect "success" "Jogo adicionado ao carrinho." "loja")
      end
  end.

(** [remover_do_carrinho(jogo_id)] *)
Definition remover_do_carrinho (jogo_id : Z) (st : State) : State * Reply :=
  match get_cart (session_cart st) with
  | None => (st, mkReply [] (Unhandled "ValueError"))
  | Some cart =>
      if Dict.mem Z.eqb cart jogo_id then
        (mkState (db st) (save_cart (Dict.del Z.eqb cart jogo_id)),
         flash_redirect "success" "Item removido do carrinho." "ver_carrinho")
      else
        (st, flash_redirect "error" "Item não encontrado no carrinho."
               "ver_carrinho")
  end.

(** *** Checkout *)

(** [db.query(Jogo).filter(Jogo.id.in_(cart.keys())).all()] *)
Definition jogos_do_carrinho (d : DB) (cart : Cart) : list Jogo.t :=
  filter (fun j => existsb (Z.eqb (Jogo.id j)) (map fst cart)) (jogos d).

(** [{j.id: j for j in jogos}]; the values are the session's objects,
    so an assignment to one of them is seen at every later lookup. *)
Definition jogos_map (d : DB) (cart : Cart) : Dict.t (K := Z) (V := Jogo.t) :=
  Dict.of_list Z.eqb (map (fun j => (Jogo.id j, j)) (jogos_do_carrinho d cart)).

(** The first loop of [finalizar_compra]: the first game of the cart
    with fewer available copies than the line asks for. *)
Fixpoint sem_estoque (d : DB) (jm : Dict.t (K := Z) (V := Jogo.t))
  (items : list (Z * Z)) : option Jogo.t :=
  match items with
  | [] => None
  | (jogo_id, quantidade) :: rest =>
      match Dict.get Z.eqb jm jogo_id with
      | None => sem_estoque d jm rest
      | Some jogo =>
          if copias_disponiveis d jogo <? quantidade then Some jogo
          else sem_estoque d jm rest
      end
  end.

(** [jogo.copias_total -= quantidade] followed by the clamp. *)
Definition abate (copias_total quantidade : Z) : Z :=
  let t := copias_total - quantidade in
  if t <? 0 then 0 else t.

(** The second loop: one [ItemPedido] per line whose game was loaded,
    and the stock of that game lowered.  [itens] is the table with the
    rows added so far. *)
Fixpoint abater_estoque (pedido_id : Z) (items : list (Z * Z))
  (jm : Dict.t (K := Z) (V := Jogo.t)) (itens : list ItemPedido.t)
  : Dict.t (K := Z) (V := Jogo.t) * list ItemPedido.t :=
  match items with
  | [] => (jm, itens)
  | (jogo_id, quantidade) :: rest =>
      match Dict.get Z.eqb jm jogo_id with
      | None => abater_estoque pedido_id rest jm itens
      | Some jogo =>
          let item :=
            ItemPedido.mk (next_id (map ItemPedido.id itens)) pedido_id
                          (Jogo.id jogo) quantidade in
          let jogo' :=
            Jogo.with_copias_total jogo (abate (Jogo.copias_total jogo) quantidade) in
          abater_estoque pedido_id rest (Dict.set Z.eqb jm jogo_id jogo')
                         (itens ++ [item])%list
      end
  end.

(** The [UPDATE] of the loaded games at commit, each row found by its
    primary key. *)
Definition gravar_jogos (jm : Dict.t (K := Z) (V := Jogo.t)) (rows : list Jogo.t)
  : list Jogo.t :=
  map (fun r => match Dict.get Z.eqb jm (Jogo.id r) with
                | Some j => j
                | None => r
                end) rows.

(** [db.query(Cliente).filter(Cliente.id == n).first()] *)
Definition get_cliente (d : DB) (n : Z) : option Cliente.t :=
  find (fun c => Cliente.id c =? n) (clientes d).

(** [db.query(Jogo).filter(Jogo.id == n).first()] *)
Definition get_jogo (d : DB) (n : Z) : option Jogo.t :=
  find (fun j => Jogo.id j =? n) (jogos d).

(** [db.query(Locacao).filter(Locacao.id == n).first()] *)
Definition get_locacao (d : DB) (n : Z) : option Locacao.t :=
  find (fun l => Locacao.id l =? n) (locacoes d).

Definition msg_sem_estoque (d : DB) (jogo : Jogo.t) : string :=
  "Não há estoque suficiente de '" ++ Jogo.titulo jogo
    ++ "' para essa compra (disponíveis: "
    ++ Py.str (copias_disponiveis d jogo) ++ ").".

(** The [try] block of [finalizar_compra], when nothing raises. *)
Definition registrar_pedido (env : Env) (cliente : Cliente.t) (cart : Cart)
  (jm : Dict.t (K := Z) (V := Jogo.t)) (d : DB) : DB :=
  let pedido :=
    Pedido.mk (next_id (map Pedido.id (pedidos d))) (Cliente.id cliente)
              (today env) "CONCLUIDO" in
  let '(jm', itens) :=
    abater_estoque (Pedido.id pedido) cart jm (itens_pedido d) in
  mkDB (gravar_jogos jm' (jogos d)) (clientes d) (locacoes d)
       (pedidos d ++ [pedido])%list itens.

(** [finalizar_compra()] *)
Definition finalizar_compra (env : Env) (req : Request) (st : State)
  : State * Reply :=
  match get_cart (session_cart st) with
  | None => (st, mkReply [] (Unhandled "ValueError"))
  | Some [] => (st, flash_redirect "error" "Carrinho vazio." "loja")
  | Some cart =>
      let jm := jogos_map (db st) cart in
      match method req with
      | POST =>
          match form_get (form req) "cliente_id" with
          | None | Some EmptyString =>
              (st, flash_redirect "error"
                     "Selecione um cliente para finalizar a compra."
                     "finalizar_compra")
          | Some cliente_id =>
              match Py.int cliente_id with
              | None =>
                  (st, flash_redirect "error" "Cliente inválido."
                         "finalizar_compra")
              | Some cliente_id_int =>
                  match get_cliente (db st) cliente_id_int with
                  | None =>
                      (st, flash_redirect "error" "Cliente não encontrado."
                             "finalizar_compra")
                  | Some cliente =>
                      match sem_estoque (db st) jm cart with
                      | Some jogo =>
                          (st, flash_redirect "error"
                                 (msg_sem_estoque (db st) jogo) "ver_carrinho")
                      | None =>
                          match fault env with
                          | Some e =>
                              (st, flash_redirect "error"
                                     ("Erro ao finalizar compra: " ++ e)
                                     "ver_carrinho")
                          | None =>
                              (mkState
                                 (registrar_pedido env cliente cart jm (db st))
                                 (save_cart []),
                               flash_redirect "success"
                                 "Compra finalizada com sucesso!" "loja")
                          end
                      end
                  end
              end
          end
      | GET => (st, mkReply [] (Render "finalizar_compra.html"))
      end
  end.

(** *** Rentals *)

(** The text of an optional form field, once it was tested true. *)
Definition text (o : option string) : string :=
  match o with
  | Some s => s
  | None => EmptyString
  end.

(** The [UPDATE] of a rental at commit, the row found by its primary
    key. *)
Definition gravar_locacao (loc : Locacao.t) (rows : list Locacao.t)
  : list Locacao.t :=
  map (fun r => if Locacao.id r =? Locacao.id loc then loc else r) rows.

(** The [DELETE] of a rental at commit. *)
Definition apagar_locacao (loc : Locacao.t) (rows : list Locacao.t)
  : list Locacao.t :=
  filter (fun r => negb (Locacao.id r =? Locacao.id loc)) rows.

Definition com_locacoes (d : DB) (rows : list Locacao.t) : DB :=
  mkDB (jogos d) (clientes d) rows (pedidos d) (itens_pedido d).

Definition msg_sem_copias (jogo : Jogo.t) : string :=
  "Não há cópias disponíveis de '" ++ Jogo.titulo jogo ++ "' para alugar.".

Section Locacoes.

(** [datetime.strptime(s, "%Y-%m-%d").date()], [None] for
    [ValueError]. *)
Variable strptime : string -> option date.

(** [cadastrar_locacao()] *)
Definition cadastrar_locacao (env : Env) (req : Request) (st : State)
  : State * Reply :=
  match method req with
  | POST =>
      let cliente_id := form_get (form req) "cliente_id" in
      let jogo_id := form_get (form req) "jogo_id" in
      let data_retirada_str := form_get (form req) "data_retirada" in
      let data_prevista_str := form_get (form req) "data_devolucao_prevista" in
      let status := form_get_default (form req) "status" "ALUGADO" in
      let ja_devolveu := String.eqb status "DEVOLVIDO" in
      let erro m := (st, flash_redirect "error" m "cadastrar_locacao") in
      if negb (truthy cliente_id && truthy jogo_id && truthy data_retirada_str)
      then erro "Preencha cliente, jogo e data de retirada."
      else
        match Py.int (text cliente_id), Py.int (text jogo_id) with
        | Some cliente_id_int, Some jogo_id_int =>
            match get_cliente (db st) cliente_id_int,
                  get_jogo (db st) jogo_id_int with
            | Some cliente, Some jogo =>
                match strptime (text data_retirada_str) with
                | None => erro "Data de retirada inválida."
                | Some data_retirada =>
                    let prevista :=
                      if truthy data_prevista_str
                      then option_map Some (strptime (text data_prevista_str))
                      else Some None in
                    match prevista with
                    | None => erro "Data de devolução prevista inválida."
                    | Some data_prevista =>
                        if negb ja_devolveu
                           && (copias_disponiveis (db st) jogo <=? 0)
                        then erro (msg_sem_copias jogo)
                        else
                          let data_devolucao_real :=
                            if ja_devolveu then Some (today env) else None in
                          match fault env with
                          | Some e =>
                              erro ("Erro ao registrar locação: " ++ e)
                          | None =>
                              let loc :=
                                Locacao.mk
                                  (next_id (map Locacao.id (locacoes (db st))))
                                  (Cliente.id cliente) (Jogo.id jogo)
                                  data_retirada data_prevista
                                  data_devolucao_real status in
                              (mkState
                                 (com_locacoes (db st)
                                    (locacoes (db st) ++ [loc])%list)
                                 (session_cart st),
                               flash_redirect "success"
                                 "Locação registrada com sucesso!"
                                 "listar_locacoes")
                          end
                    end
                end
            | _, _ => erro "Cliente ou jogo não encontrado."
            end
        | _, _ => erro "Cliente ou jogo inválido."
        end
  | GET => (st, mkReply [] (Render "locacoes_cadastrar.html"))
  end.

(** The [db.commit()] that ends [editar_locacao] and
    [devolver_locacao], with its [except] branch. *)
Definition commit_locacao (env : Env) (st : State) (loc : Locacao.t)
  (sucesso erro : string) : State * Reply :=
  match fault env with
  | Some e => (st, flash_redirect "error" (erro ++ e) "listar_locacoes")
  | None =>
      (mkState (com_locacoes (db st) (gravar_locacao loc (locacoes (db st))))
               (session_cart st),
       flash_redirect "success" sucesso "listar_locacoes")
  end.

(** [editar_locacao(locacao_id)] *)
Definition editar_locacao (env : Env) (locacao_id : Z) (req : Request)
  (st : State) : State * Reply :=
  match get_locacao (db st) locacao_id with
  | None =>
      (st, flash_redirect "error" "Locação não encontrada." "listar_locacoes")
  | Some loc =>
      match method req with
      | POST =>
          let status := form_get_default (form req) "status" "ALUGADO" in
          let data_devolucao_real_str :=
            form_get (form req) "data_devolucao_real" in
          let commit l :=
            commit_locacao env st l "Locação atualizada com sucesso!"
                           "Erro ao atualizar locação: " in
          if String.eqb status "DEVOLVIDO" then
            if truthy data_devolucao_real_str then
              match strptime (text data_devolucao_real_str) with
              | Some d => commit (Locacao.with_devolucao loc status (Some d))
              | None =>
                  (st, mkReply [("error", "Data de devolução real inválida.")]
                         (Redirect "editar_locacao" (Some (Locacao.id loc))))
              end
            else commit (Locacao.with_devolucao loc status (Some (today env)))
          else commit (Locacao.with_devolucao loc status None)
      | GET => (st, mkReply [] (Render "locacoes_editar.html"))
      end
  end.

(** [deletar_locacao(locacao_id)] *)
Definition deletar_locacao (env : Env) (locacao_id : Z) (st : State)
  : State * Reply :=
  match get_locacao (db st) locacao_id with
  | None =>
      (st, flash_redirect "error" "Locação não encontrada." "listar_locacoes")
  | Some loc =>
      match fault env with
      | Some e =>
          (st, flash_redirect "error" ("Erro ao remover locação: " ++ e)
                 "listar_locacoes")
      | None =>
          (mkState (com_locacoes (db st) (apagar_locacao loc (locacoes (db st))))
                   (session_cart st),
           flash_redirect "success" "Locação removida com sucesso!"
             "listar_locacoes")
      end
  end.

(** [devolver_locacao(locacao_id)] *)
Definition devolver_locacao (env : Env) (locacao_id : Z) (st : State)
  : State * Reply :=
  match get_locacao (db st) locacao_id with
  | None =>
      (st, flash_redirect "error" "Locação não encontrada." "listar_locacoes")
  | Some loc =>
      if String.eqb (Locacao.status loc) "DEVOLVIDO" then
        (st, flash_redirect "info"
               "Essa locação já está marcada como devolvida."
               "listar_locacoes")
      else
        commit_locacao env st
          (Locacao.with_devolucao loc "DEVOLVIDO" (Some (today env)))
          "Devolução registrada com sucesso!"
          "Erro ao registrar devolução: "
  end.

(** *** The routes, and requests served one after the other *)

Inductive Chamada :=
| AdicionarAoCarrinho (jogo_id : Z) (req : Request)
| RemoverDoCarrinho (jogo_id : Z)
| FinalizarCompra (req : Request)
| CadastrarLocacao (req : Request)
| EditarLocacao (locacao_id : Z) (req : Request)
| DeletarLocacao (locacao_id : Z)
| DevolverLocacao (locacao_id : Z).

Definition atender (env : Env) (c : Chamada) (st : State) : State * Reply :=
  match c with
  | AdicionarAoCarrinho jogo_id req => adicionar_ao_carrinho jogo_id req st
  | RemoverDoCarrinho jogo_id => remover_do_carrinho jogo_id st
  | FinalizarCompra req => finalizar_compra env req st
  | CadastrarLocacao req => cadastrar_locacao env req st
  | EditarLocacao locacao_id req => editar_locacao env locacao_id req st
  | DeletarLocacao locacao_id => deletar_locacao env locacao_id st
  | DevolverLocacao locacao_id => devolver_locacao env locacao_id st
  end.

Fixpoint atender_todas (cs : list (Env * Chamada)) (st : State) : State :=
  match cs with
  | [] => st
  | (env, c) :: rest => atender_todas rest (fst (atender env c st))
  end.

End Locacoes.

(** *** Games *)

Definition com_jogos (d : DB) (rows : list Jogo.t) : DB :=
  mkDB rows (clientes d) (locacoes d) (pedidos d) (itens_pedido d).

(** The [UPDATE] of a game at commit, the row found by its primary
    key. *)
Definition gravar_jogo (j : Jogo.t) (rows : list Jogo.t) : list Jogo.t :=
  map (fun r => if Jogo.id r =? Jogo.id j then j else r) rows.

Definition msg_numeros_invalidos : string :=
  "Ano de lançamento e cópias devem ser números válidos.".

(** [cadastrar_jogo()] *)
Definition cadastrar_jogo (env : Env) (req : Request) (st : State)
  : State * Reply :=
  match method req with
  | POST =>
      let titulo := form_get (form req) "titulo" in
      let genero := form_get (form req) "genero" in
      let ano_lancamento := form_get (form req) "ano_lancamento" in
      let plataformas := form_get (form req) "plataformas" in
      let desenvolvedora := form_get (form req) "desenvolvedora" in
      let copias_total := form_get (form req) "copias_total" in
      let invalido :=
        (st, flash_redirect "error" msg_numeros_invalidos "cadastrar_jogo") in
      if negb (truthy titulo && truthy genero && truthy ano_lancamento
               && truthy plataformas && truthy desenvolvedora
               && truthy copias_total)
      then (st, flash_redirect "error" "Preencha todos os campos." "cadastrar_jogo")
      else
        match Py.int (text ano_lancamento) with
        | None => invalido
        | Some ano_int =>
            match Py.int (text copias_total) with
            | None => invalido
            | Some copias_int =>
                if copias_int <=? 0 then invalido
                else
                  match fault env with
                  | Some e =>
                      (st, flash_redirect "error" ("Erro ao cadastrar jogo: " ++ e)
                             "listar_jogos")
                  | None =>
                      let jogo :=
                        Jogo.mk (next_id (map Jogo.id (jogos (db st))))
                                (text titulo) (text genero) ano_int
                                (text plataformas) (text desenvolvedora)
                                copias_int in
                      (mkState (com_jogos (db st) (jogos (db st) ++ [jogo])%list)
                               (session_cart st),
                       flash_redirect "success" "Jogo cadastrado com sucesso!"
                                      "listar_jogos")
                  end
            end
        end
  | GET => (st, mkReply [] (Render "jogos_cadastrar.html"))
  end.

(** [editar_jogo(jogo_id)].  [int(None)] raises [TypeError], which the
    handler does not catch; a text column, declared [nullable=False],
    refuses [None] at commit. *)
Definition editar_jogo (env : Env) (jogo_id : Z) (req : Request) (st : State)
  : State * Reply :=
  match get_jogo (db st) jogo_id with
  | None => (st, flash_redirect "error" "Jogo não encontrado." "listar_jogos")
  | Some jogo =>
      match method req with
      | POST =>
          let titulo := form_get (form req) "titulo" in
          let genero := form_get (form req) "genero" in
          let plataformas := form_get (form req) "plataformas" in
          let desenvolvedora := form_get (form req) "desenvolvedora" in
          let invalido :=
            (st, mkReply [("error", msg_numeros_invalidos)]
                   (Redirect "editar_jogo" (Some jogo_id))) in
          let falha e :=
            (st, flash_redirect "error" ("Erro ao atualizar jogo: " ++ e)
                   "listar_jogos") in
          match form_get (form req) "ano_lancamento" with
          | None => (st, mkReply [] (Unhandled "TypeError"))
          | Some ano_str =>
              match Py.int ano_str with
              | None => invalido
              | Some ano =>
                  match form_get (form req) "copias_total" with
                  | None => (st, mkReply [] (Unhandled "TypeError"))
                  | Some copias_str =>
                      match Py.int copias_str with
                      | None => invalido
                      | Some copias =>
                          match fault env with
                          | Some e => falha e
                          | None =>
                              match titulo, genero, plataformas, desenvolvedora with
                              | Some t, Some g, Some p, Some d =>
                                  let jogo' :=
                                    Jogo.mk (Jogo.id jogo) t g ano p d copias in
                                  (mkState
                                     (com_jogos (db st)
                                        (gravar_jogo jogo' (jogos (db st))))
                                     (session_cart st),
                                   flash_redirect "success"
                                     "Jogo atualizado com sucesso!" "listar_jogos")
                              | _, _, _, _ => falha "IntegrityError"
                              end
                          end
                      end
                  end
              end
          end
      | GET => (st, mkReply [] (Render "jogos_editar.html"))
      end
  end.

End Loja.

(* ================================================================= *)
(** ** Notions used in the statements *)

(** Every character of the string satisfies the test. *)
Fixpoint all_chars (p : ascii -> bool) (s : string) : bool :=
  match s with
  | EmptyString => true
  | String c r => p c && all_chars p r
  end.

Definition not_space (c : ascii) : bool := negb (Py.c_isspace c).

Module LojaSpec.
Import Http Loja.


(** The primary key of [jogos]: no two rows with one [id]. *)
Definition pk_jogos (d : DB) : Prop := NoDup (map Jogo.id (jogos d)).

(** The second loop of [finalizar_compra] without its last two lines
    (the clamp at zero). *)
Fixpoint abater_estoque_sem_clamp (pedido_id : Z) (items : list (Z * Z))
  (jm : Dict.t (K := Z) (V := Jogo.t)) (itens : list ItemPedido.t)
  : Dict.t (K := Z) (V := Jogo.t) * list ItemPedido.t :=
  match items with
  | [] => (jm, itens)
  | (jogo_id, quantidade) :: rest =>
      match Dict.get Z.eqb jm jogo_id with
      | None => abater_estoque_sem_clamp pedido_id rest jm itens
      | Some jogo =>
          let item :=
            ItemPedido.mk (next_id (map ItemPedido.id itens)) pedido_id
                          (Jogo.id jogo) quantidade in
          let jogo' :=
            Jogo.with_copias_total jogo (Jogo.copias_total jogo - quantidade) in
          abater_estoque_sem_clamp pedido_id rest
            (Dict.set Z.eqb jm jogo_id jogo') (itens ++ [item])%list
      end
  end.

(** The primary key of [locacoes]. *)
Definition pk_locacoes (d : DB) : Prop := NoDup (map Locacao.id (locacoes d)).

(** An order line without its key. *)
Definition linha (it : ItemPedido.t) : Z * Z * Z :=
  (ItemPedido.pedido_id it, ItemPedido.jogo_id it, ItemPedido.quantidade it).

(** The lines an order gets from a cart: one per entry whose game is in
    the table, with the identifier and the quantity of the entry. *)
Definition linhas_do_pedido (d : DB) (pid : Z) (cart : Cart) : list (Z * Z * Z) :=
  flat_map (fun kv => match get_jogo d (fst kv) with
                      | Some _ => [(pid, fst kv, snd kv)]
                      | None => []
                      end) cart.

(** A row of [jogos] after the purchase of the cart: its total lowered
    by the quantity of its entry, untouched when it has none. *)
Definition baixar (cart : Cart) (j : Jogo.t) : Jogo.t :=
  match Dict.get Z.eqb cart (Jogo.id j) with
  | Some q => Jogo.with_copias_total j (Jogo.copias_total j - q)
  | None => j
  end.

(** The number of rows that pass a test. *)
Definition conta (f : Locacao.t -> bool) (rows : list Locacao.t) : nat :=
  List.length (filter f rows).

Definition um (b : bool) : nat := if b then 1%nat else 0%nat.

(** The test that counts a rental against a game. *)
Definition ocupa (j : Jogo.t) (l : Locacao.t) : bool :=
  (Locacao.jogo_id l =? Jogo.id j) && String.eqb (Locacao.status l) "ALUGADO".

(** The number of rentals of the game whose status is ALUGADO. *)
Definition ativas (d : DB) (j : Jogo.t) : nat :=
  List.length
    (filter (fun l => (Locacao.jogo_id l =? Jogo.id j)
                      && String.eqb (Locacao.status l) "ALUGADO")
            (locacoes d)).

(** No game of the table has more rentals out than copies. *)
Definition estoque_ok (d : DB) : Prop :=
  forall j, In j (jogos d) -> 0 <= copias_disponiveis d j.

(** The request is not an edit that sets a rental to ALUGADO. *)
Definition nao_reabre (c : Chamada) : Prop :=
  match c with
  | EditarLocacao _ req =>
      form_get_default (form req) "status" "ALUGADO" <> "ALUGADO"
  | _ => True
  end.

End LojaSpec.

Module FaculdadeSpec.
Import Http Faculdade.

(** A row as the application writes it: a course of the fixed set and
    the course code followed by a decimal number. *)
Definition numerada (a : Aluno) : Prop :=
  curso_valido (curso a) = true /\ exists n, matricula a = curso a ++ Py.str n.

Definition bem_formado (db : DB) : Prop := Forall numerada db.

(** The course a form asks for, as the handlers read it. *)
Definition curso_pedido (req : Request) : string :=
  Py.upper (Py.strip (form_get_default (form req) "curso" "")).

End FaculdadeSpec.

(* ================================================================= *)
(** ** Worked examples *)

Module Exemplos.
Import Http Loja.

Definition celeste : Jogo.t := Jogo.mk 1 "Celeste" "Plataforma" 2018 "PC" "EXOK" 1.
Definition hades : Jogo.t := Jogo.mk 1 "Hades" "Roguelike" 2020 "PC, Switch" "Supergiant" 5.
Definition tetris : Jogo.t := Jogo.mk 2 "Tetris" "Puzzle" 1984 "PC" "Pajitnov" 2.
Definition ana : Cliente.t := Cliente.mk 1 "Ana" "3471-0000" "111.222.333-44" "Rua A, 1".

Definition aluguel (n jogo : Z) (s : string) (real : option date) : Locacao.t :=
  Locacao.mk n 1 jogo 739000 None real s.

Definition hoje : Env := mkEnv 739100 None.

Definition post (campos : list (string * string)) : Request := mkRequest POST campos.

(** The date parser of the examples knows two dates. *)
Definition strptime (s : string) : option date :=
  if String.eqb s "2024-05-01" then Some 738642
  else if String.eqb s "2024-05-08" then Some 738649
  else None.

(** One copy of the game, three asked for. *)
Definition loja_sem_estoque : State :=
  mkState (mkDB [celeste] [ana] [] [] []) [("1", 3)].

(** Two games, one copy of the first rented out; a cart with both. *)
Definition loja_com_estoque : State :=
  mkState (mkDB [hades; tetris] [ana] [aluguel 1 1 "ALUGADO" None] [] [])
          [("1", 2); ("2", 1)].

(** A cart with an entry whose game is not in the table. *)
Definition loja_item_orfao : State :=
  mkState (mkDB [hades] [ana] [] [] []) [("1", 2); ("999", 1)].

(** The only copy of the game is rented out; the second rental was
    returned. *)
Definition loja_alugada : State :=
  mkState (mkDB [celeste] [ana]
                [aluguel 1 1 "ALUGADO" None;
                 aluguel 2 1 "DEVOLVIDO" (Some 739050)] [] [])
          [].

Definition compra : Request := post [("cliente_id", "1")].

Definition turma : Faculdade.DB :=
  [Faculdade.mkAluno 1 "Bia" "bia@inatel.br" "GEA" "GEA1"].

Definition matricular (n e c : string) : Faculdade.Env * Request :=
  (Faculdade.mkEnv None, post [("nome", n); ("email", e); ("curso", c)]).

Definition pedidos_de_matricula : list (Faculdade.Env * Request) :=
  [matricular "Caio" "caio@inatel.br" "gec";
   matricular "Duda" "duda@inatel.br" "GEA";
   matricular "Caio" "caio@inatel.br" "GEC";
   matricular "Eva" " eva@inatel.br " "GEC"].

Definition turma_irregular : Faculdade.DB :=
  [Faculdade.mkAluno 1 "Bia" "bia@inatel.br" "GEC" "GEC7";
   Faculdade.mkAluno 2 "Caio" "caio@inatel.br" "GEC" "GEC-A"].


Definition alugar (status : string) : Request :=
  post [("cliente_id", "1"); ("jogo_id", "1"); ("data_retirada", "2024-05-01");
        ("data_devolucao_prevista", "2024-05-08"); ("status", status)].

(** Two students of GEC; the first moves to GEA and back. *)
Definition pedidos_que_travam : list (Faculdade.Env * Faculdade.Chamada) :=
  [(Faculdade.mkEnv None,
    Faculdade.NovoAluno (snd (matricular "Ana" "ana@inatel.br" "GEC")));
   (Faculdade.mkEnv None,
    Faculdade.NovoAluno (snd (matricular "Bia" "bia@inatel.br" "GEC")));
   (Faculdade.mkEnv None,
    Faculdade.EditarAluno 1 (snd (matricular "Ana" "ana@inatel.br" "GEA")));
   (Faculdade.mkEnv None,
    Faculdade.EditarAluno 1 (snd (matricular "Ana" "ana@inatel.br" "GEC")))].

Definition turma_travada : Faculdade.DB :=
  [Faculdade.mkAluno 1 "Ana" "ana@inatel.br" "GEC" "GEC3";
   Faculdade.mkAluno 2 "Bia" "bia@inatel.br" "GEC" "GEC2"].

Definition dupla : Faculdade.DB :=
  [Faculdade.mkAluno 1 "Bia" "bia@inatel.br" "GEA" "GEA1";
   Faculdade.mkAluno 2 "Caio" "caio@inatel.br" "GEC" "GEC1"].

Definition pedidos_do_registro : list (Faculdade.Env * Faculdade.Chamada) :=
  [(Faculdade.mkEnv None,
    Faculdade.NovoAluno (snd (matricular "Ana" "ana@inatel.br" "GES")));
   (Faculdade.mkEnv None,
    Faculdade.EditarAluno 2 (snd (matricular "Caio" "caio@inatel.br" "GES")));
   (Faculdade.mkEnv None, Faculdade.DeletarAluno 1);
   (Faculdade.mkEnv (Some "OperationalError"), Faculdade.DeletarAluno 2)].


Definition falha : Env := mkEnv 739100 (Some "OperationalError").

(** Cart and rental requests, none of which sets a rental to ALUGADO
    by an edit. *)
Definition pedidos_sem_reabrir : list (Env * Chamada) :=
  [(hoje, CadastrarLocacao
            (post [("cliente_id", "1"); ("jogo_id", "2");
                   ("data_retirada", "2024-05-01")]));
   (hoje, CadastrarLocacao
            (post [("cliente_id", "1"); ("jogo_id", "2");
                   ("data_retirada", "2024-05-01")]));
   (hoje, CadastrarLocacao
            (post [("cliente_id", "1"); ("jogo_id", "2");
                   ("data_retirada", "2024-05-01")]));
   (hoje, FinalizarCompra compra);
   (hoje, EditarLocacao 1 (post [("status", "DEVOLVIDO")]));
   (hoje, DeletarLocacao 2);
   (hoje, AdicionarAoCarrinho 1 (post [("quantidade", "4")]));
   (hoje, FinalizarCompra compra)].

Definition edicao_de_jogo : Request :=
  post [("titulo", "Celeste"); ("genero", "Plataforma");
        ("ano_lancamento", "2018"); ("plataformas", "PC");
        ("desenvolvedora", "EXOK"); ("copias_total", "-3")].

End Exemplos.

(* ================================================================= *)
(** * Properties *)

(** ** [int] reads back what [str] writes *)

Lemma isdigit_not_space c : Py.isdigit c = true -> not_space c = true.
Proof.
  destruct c as [[] [] [] [] [] [] [] []]; vm_compute; congruence.
Qed.

Lemma isdigit_not_sign c :
  Py.isdigit c = true -> Ascii.eqb c "-" = false /\ Ascii.eqb c "+" = false.
Proof.
  destruct c as [[] [] [] [] [] [] [] []]; vm_compute; intuition congruence.
Qed.

Lemma all_chars_weaken (p q : ascii -> bool) s :
  (forall c, p c = true -> q c = true) ->
  all_chars p s = true -> all_chars q s = true.
Proof.
  intros Hpq. induction s as [|c r IH]; simpl; auto.
  intros H. apply andb_true_iff in H as [Hc Hr].
  rewrite (Hpq _ Hc), (IH Hr). reflexivity.
Qed.

Lemma uint_digits d : all_chars Py.isdigit (NilEmpty.string_of_uint d) = true.
Proof. induction d; simpl; auto. Qed.

Lemma rstrip_no_space s :
  all_chars not_space s = true -> Py.rstrip_by Py.c_isspace s = s.
Proof.
  induction s as [|c r IH]; simpl; auto.
  intros H. apply andb_true_iff in H as [Hc Hr].
  rewrite (IH Hr). unfold not_space in Hc.
  apply negb_true_iff in Hc. rewrite Hc. destruct r; reflexivity.
Qed.

Lemma strip_no_space s :
  all_chars not_space s = true ->
  Py.rstrip_by Py.c_isspace (Py.lstrip_by Py.c_isspace s) = s.
Proof.
  intros H.
  assert (Hl : Py.lstrip_by Py.c_isspace s = s).
  { destruct s as [|c r]; simpl in *; auto.
    apply andb_true_iff in H as [Hc _]. unfold not_space in Hc.
    apply negb_true_iff in Hc. now rewrite Hc. }
  rewrite Hl. now apply rstrip_no_space.
Qed.

Lemma literal_digits_true s :
  all_chars Py.isdigit s = true -> Py.literal_digits true s = Some s.
Proof.
  induction s as [|c r IH]; simpl; auto.
  intros H. apply andb_true_iff in H as [Hc Hr].
  rewrite Hc, (IH Hr). reflexivity.
Qed.

Lemma literal_digits_false c r :
  all_chars Py.isdigit (String c r) = true ->
  Py.literal_digits false (String c r) = Some (String c r).
Proof.
  simpl. intros H. apply andb_true_iff in H as [Hc Hr].
  rewrite Hc, (literal_digits_true _ Hr). reflexivity.
Qed.

Lemma string_of_uint_nonempty d :
  d <> Decimal.Nil -> exists c r, NilEmpty.string_of_uint d = String c r.
Proof. destruct d; simpl; try congruence; eauto. Qed.

Lemma parse_nat_uint d :
  d <> Decimal.Nil ->
  Py.parse_nat (NilEmpty.string_of_uint d) = Some (Z.of_uint d).
Proof.
  intros Hd. unfold Py.parse_nat.
  destruct (string_of_uint_nonempty d Hd) as (c & r & E).
  pose proof (uint_digits d) as Hdig. rewrite E in Hdig.
  rewrite E, (literal_digits_false _ _ Hdig), <- E, NilEmpty.usu.
  reflexivity.
Qed.

Lemma str_pos p : Py.str (Z.pos p) = NilEmpty.string_of_uint (Pos.to_uint p).
Proof.
  unfold Py.str. simpl. unfold NilZero.string_of_uint.
  pose proof (DecimalPos.Unsigned.to_uint_nonnil p) as H.
  destruct (Pos.to_uint p); congruence.
Qed.

Lemma str_neg p :
  Py.str (Z.neg p) = String "-" (NilEmpty.string_of_uint (Pos.to_uint p)).
Proof.
  unfold Py.str. simpl. unfold NilZero.string_of_uint.
  pose proof (DecimalPos.Unsigned.to_uint_nonnil p) as H.
  destruct (Pos.to_uint p); congruence.
Qed.

Lemma of_uint_to_uint p : Z.of_uint (Pos.to_uint p) = Z.pos p.
Proof.
  unfold Z.of_uint. rewrite DecimalPos.Unsigned.of_to. reflexivity.
Qed.

(** [int(str(n)) == n] for every integer. *)
Lemma int_str n : Py.int (Py.str n) = Some n.
Proof.
  destruct n as [|p|p].
  - reflexivity.
  - rewrite str_pos. unfold Py.int.
    pose proof (DecimalPos.Unsigned.to_uint_nonnil p) as Hn.
    pose proof (uint_digits (Pos.to_uint p)) as Hdig.
    rewrite strip_no_space
      by (eapply all_chars_weaken; [apply isdigit_not_space | exact Hdig]).
    destruct (string_of_uint_nonempty _ Hn) as (c & r & E).
    rewrite E in Hdig |- *. simpl in Hdig.
    apply andb_true_iff in Hdig as [Hc _].
    destruct (isdigit_not_sign c Hc) as [-> ->].
    rewrite <- E, parse_nat_uint by exact Hn.
    now rewrite of_uint_to_uint.
  - rewrite str_neg. unfold Py.int.
    pose proof (DecimalPos.Unsigned.to_uint_nonnil p) as Hn.
    pose proof (uint_digits (Pos.to_uint p)) as Hdig.
    rewrite strip_no_space.
    + simpl. rewrite parse_nat_uint by exact Hn.
      now rewrite of_uint_to_uint.
    + simpl. eapply all_chars_weaken; [apply isdigit_not_space | exact Hdig].
Qed.

Lemma str_inj n m : Py.str n = Py.str m -> n = m.
Proof.
  intros H. pose proof (int_str n) as Hn. rewrite H, int_str in Hn.
  congruence.
Qed.

(** ** Prefixes and slices *)

Lemma startswith_app c s : Py.startswith (c ++ s) c = true.
Proof.
  unfold Py.startswith. induction c as [|a c IH]; simpl.
  - destruct s; reflexivity.
  - destruct (ascii_dec a a); [exact IH | congruence].
Qed.

Lemma slice_from_app c s : Py.slice_from (String.length c) (c ++ s) = s.
Proof. induction c as [|a c IH]; simpl; auto. Qed.


(** ** The matriculation allocator *)

Module FaculdadeFacts.
Import Http Faculdade.

Lemma first_by_id_desc_fold rows : first_by_id_desc rows = fold_left pick rows None.
Proof. reflexivity. Qed.

Lemma fold_pick_bound rows : forall acc a,
  fold_left pick rows acc = Some a ->
  (acc = Some a \/ In a rows).
Proof.
  induction rows as [|r rows IH]; simpl; intros acc a H; auto.
  apply IH in H as [H | H]; auto.
  destruct acc as [b|]; simpl in H.
  - destruct (id b <? id r); inversion H; subst; auto.
  - inversion H; subst; auto.
Qed.

Lemma fold_pick_some rows : forall b, exists a, fold_left pick rows (Some b) = Some a.
Proof.
  induction rows as [|r rows IH]; simpl; intros b; eauto.
  destruct (id b <? id r); apply IH.
Qed.


Lemma first_by_id_desc_nil rows : rows = [] -> first_by_id_desc rows = None.
Proof. now intros ->. Qed.

Lemma next_id_above db : Forall (fun b => id b < next_id db) db.
Proof.
  unfold next_id. induction db as [|r db IH]; constructor; cbn [map fold_right].
  - lia.
  - eapply Forall_impl; [| exact IH]. cbv beta. intros; lia.
Qed.

Lemma Forall_filter {A} (P : A -> Prop) f l : Forall P l -> Forall P (filter f l).
Proof.
  induction 1; simpl; auto. destruct (f x); auto.
Qed.









End FaculdadeFacts.

Section MatriculaClaims.
Import Http Faculdade FaculdadeFacts.



End MatriculaClaims.

(** ** Dictionaries *)

Section DictFacts.
Context {K V : Type} (eqb : K -> K -> bool).
Hypothesis eqb_spec : forall a b, eqb a b = true <-> a = b.

Local Lemma eqb_refl a : eqb a a = true.
Proof. now apply eqb_spec. Qed.

Local Lemma eqb_false a b : a <> b -> eqb a b = false.
Proof.
  intros H. destruct (eqb a b) eqn:E; auto. apply eqb_spec in E. contradiction.
Qed.

Lemma dict_get_In (d : Dict.t) k (v : V) : Dict.get eqb d k = Some v -> In (k, v) d.
Proof.
  induction d as [|[k' v'] d IH]; simpl; [discriminate |].
  destruct (eqb k' k) eqn:E.
  - apply eqb_spec in E. intros [= ->]. subst. auto.
  - auto.
Qed.

Lemma dict_get_None (d : Dict.t (V := V)) k :
  Dict.get eqb d k = None <-> ~ In k (map fst d).
Proof.
  induction d as [|[k' v'] d IH]; simpl; [tauto |].
  destruct (eqb k' k) eqn:E.
  - apply eqb_spec in E. split; [discriminate | intros H; exfalso; auto].
  - rewrite IH. split; [| tauto].
    intros H [H' | H']; auto. subst. rewrite eqb_refl in E. discriminate.
Qed.

Lemma dict_In_get (d : Dict.t) k (v : V) :
  NoDup (map fst d) -> In (k, v) d -> Dict.get eqb d k = Some v.
Proof.
  induction d as [|[k' v'] d IH]; simpl; [tauto |].
  intros Hnd [H | H].
  - inversion H; subst. now rewrite eqb_refl.
  - inversion Hnd; subst.
    rewrite eqb_false; [auto |].
    intros ->. apply H2. change k with (fst (k, v)). now apply in_map.
Qed.

Lemma dict_set_absent (d : Dict.t) k (v : V) :
  ~ In k (map fst d) -> Dict.set eqb d k v = (d ++ [(k, v)])%list.
Proof.
  induction d as [|[k' v'] d IH]; simpl; auto.
  intros H. rewrite eqb_false by (intros ->; auto).
  rewrite IH; auto.
Qed.

Lemma dict_set_keys (d : Dict.t) k (v : V) :
  map fst (Dict.set eqb d k v)
  = if Dict.mem eqb d k then map fst d else (map fst d ++ [k])%list.
Proof.
  unfold Dict.mem. induction d as [|[k' v'] d IH]; simpl; auto.
  destruct (eqb k' k) eqn:E; simpl; auto.
  rewrite IH. destruct (Dict.get eqb d k); reflexivity.
Qed.

Lemma dict_set_NoDup (d : Dict.t) k (v : V) :
  NoDup (map fst d) -> NoDup (map fst (Dict.set eqb d k v)).
Proof.
  intros H. rewrite dict_set_keys. unfold Dict.mem.
  destruct (Dict.get eqb d k) eqn:E; auto.
  apply dict_get_None in E.
  apply NoDup_app; auto.
  - constructor; [simpl; tauto | constructor].
  - intros x Hx [<- | []]. contradiction.
Qed.





Lemma dict_fold_set_NoDup (l : list (K * V)) : forall acc : Dict.t,
  NoDup (map fst acc) ->
  NoDup (map fst (fold_left (fun d kv => Dict.set eqb d (fst kv) (snd kv)) l acc)).
Proof.
  induction l as [|[k v] l IH]; simpl; auto.
  intros acc H. apply IH. now apply dict_set_NoDup.
Qed.

Lemma dict_of_list_NoDup (l : list (K * V)) : NoDup (map fst (Dict.of_list eqb l)).
Proof. apply dict_fold_set_NoDup. constructor. Qed.



Lemma dict_fold_set_fresh (l : list (K * V)) : forall acc : Dict.t,
  NoDup (map fst (acc ++ l)) ->
  fold_left (fun d kv => Dict.set eqb d (fst kv) (snd kv)) l acc = (acc ++ l)%list.
Proof.
  induction l as [|[k v] l IH]; simpl; intros acc H.
  - now rewrite List.app_nil_r.
  - rewrite dict_set_absent.
    + rewrite IH; rewrite <- List.app_assoc; [reflexivity | exact H].
    + rewrite map_app in H. simpl in H.
      apply NoDup_remove_2 in H. intros Hin. apply H.
      apply in_or_app. auto.
Qed.

(** A comprehension over entries with distinct keys keeps them as
    they are. *)
Lemma dict_of_list_fresh (l : list (K * V)) :
  NoDup (map fst l) -> Dict.of_list eqb l = l.
Proof. intros H. unfold Dict.of_list. now rewrite dict_fold_set_fresh. Qed.

Lemma dict_get_set_same (d : Dict.t) k (v : V) :
  Dict.get eqb (Dict.set eqb d k v) k = Some v.
Proof.
  induction d as [|[k' v'] d IH]; simpl.
  - now rewrite eqb_refl.
  - destruct (eqb k' k) eqn:E; simpl; rewrite E; auto.
Qed.

Lemma dict_get_set_other (d : Dict.t) k k' (v : V) :
  k' <> k -> Dict.get eqb (Dict.set eqb d k v) k' = Dict.get eqb d k'.
Proof.
  intros Hne. induction d as [|[k0 v0] d IH]; simpl.
  - rewrite eqb_false; auto.
  - destruct (eqb k0 k) eqn:E; simpl.
    + apply eqb_spec in E. subst.
      rewrite !eqb_false; auto.
    + destruct (eqb k0 k'); auto.
Qed.

End DictFacts.

(** ** The cart and the session *)

Module CartFacts.
Import Http Loja LojaSpec.

Lemma Zeqb_spec a b : Z.eqb a b = true <-> a = b.
Proof. apply Z.eqb_eq. Qed.

Lemma Seqb_spec a b : String.eqb a b = true <-> a = b.
Proof. apply String.eqb_eq. Qed.



Lemma get_cart_NoDup s cart : get_cart s = Some cart -> NoDup (map fst cart).
Proof.
  unfold get_cart. destruct (int_keys s); [| discriminate].
  intros [= <-]. apply dict_of_list_NoDup. exact Zeqb_spec.
Qed.


Lemma int_keys_str cart :
  int_keys (map (fun kv => (Py.str (fst kv), snd kv)) cart) = Some cart.
Proof.
  induction cart as [|[k v] cart IH]; simpl; auto.
  rewrite int_str, IH. reflexivity.
Qed.

(** What [save_cart] stores is what the next [get_cart] returns. *)
Lemma get_cart_save_cart cart :
  NoDup (map fst cart) -> get_cart (save_cart cart) = Some cart.
Proof.
  intros H. unfold save_cart, get_cart.
  rewrite (dict_of_list_fresh String.eqb Seqb_spec).
  - rewrite int_keys_str. simpl. f_equal.
    now apply (dict_of_list_fresh Z.eqb Zeqb_spec).
  - rewrite map_map. simpl.
    rewrite <- (map_map fst Py.str).
    apply Injective_map_NoDup; auto.
    intros a b. apply str_inj.
Qed.




End CartFacts.

Section CartClaims.
Import Http Loja LojaSpec CartFacts.
Variable strptime : string -> option date.








End CartClaims.

(** ** The checkout *)

Module CheckoutFacts.
Import Http Loja LojaSpec CartFacts.

Lemma sum_ones {A} (l : list A) :
  fold_left Z.add (map (fun _ => 1) l) 0 = Z.of_nat (List.length l).
Proof.
  assert (G : forall acc, fold_left Z.add (map (fun _ : A => 1) l) acc
                          = acc + Z.of_nat (List.length l)).
  { induction l as [|x l IH]; intros acc; cbn [map fold_left List.length].
    - simpl. lia.
    - rewrite IH. lia. }
  apply G.
Qed.

Lemma alugados_nonneg d j : 0 <= alugados d j.
Proof. unfold alugados. rewrite sum_ones. lia. Qed.

Lemma get_map_id (l : list Jogo.t) k :
  Dict.get Z.eqb (map (fun j => (Jogo.id j, j)) l) k
  = find (fun j => Jogo.id j =? k) l.
Proof.
  induction l as [|j l IH]; simpl; auto.
  destruct (Jogo.id j =? k); auto.
Qed.

Lemma find_filter_keys (l : list Jogo.t) (keys : list Z) k :
  find (fun j => Jogo.id j =? k)
       (filter (fun j => existsb (Z.eqb (Jogo.id j)) keys) l)
  = if existsb (Z.eqb k) keys then find (fun j => Jogo.id j =? k) l else None.
Proof.
  induction l as [|j l IH]; simpl.
  - destruct (existsb _ _); reflexivity.
  - destruct (Jogo.id j =? k) eqn:E.
    + pose proof E as Ez. apply Z.eqb_eq in Ez. rewrite Ez.
      destruct (existsb (Z.eqb k) keys) eqn:Ek; simpl.
      * rewrite E. reflexivity.
      * exact IH.
    + destruct (existsb (Z.eqb (Jogo.id j)) keys); simpl; [rewrite E |]; apply IH.
Qed.

(** Under the primary key, the map of the checkout sends the key of a
    cart line to the row of that game. *)
Lemma jogos_map_get d cart k :
  pk_jogos d ->
  Dict.get Z.eqb (jogos_map d cart) k
  = if existsb (Z.eqb k) (map fst cart) then get_jogo d k else None.
Proof.
  intros Hpk. unfold jogos_map, jogos_do_carrinho, get_jogo.
  rewrite (dict_of_list_fresh Z.eqb Zeqb_spec).
  - rewrite get_map_id. apply find_filter_keys.
  - rewrite map_map. simpl.
    assert (G : forall l, NoDup (map Jogo.id l) ->
                NoDup (map Jogo.id
                         (filter (fun j => existsb (Z.eqb (Jogo.id j)) (map fst cart)) l))).
    { induction l as [|j l IH]; simpl; intros H; auto.
      inversion H; subst.
      destruct (existsb _ _); simpl; auto.
      constructor; auto.
      intros Hin. apply H2. apply in_map_iff in Hin as (x & Hx & Hin).
      apply filter_In in Hin as [Hin _]. rewrite <- Hx. now apply in_map. }
    apply G, Hpk.
Qed.

Lemma existsb_key (cart : list (Z * Z)) k q :
  In (k, q) cart -> existsb (Z.eqb k) (map fst cart) = true.
Proof.
  intros H. apply existsb_exists. exists k. split; [| apply Z.eqb_refl].
  change k with (fst (k, q)). now apply in_map.
Qed.

Lemma jogos_map_line d (cart : Cart) k q :
  pk_jogos d -> In (k, q) cart ->
  Dict.get Z.eqb (jogos_map d cart) k = get_jogo d k.
Proof.
  intros Hpk Hin. rewrite jogos_map_get by exact Hpk.
  now rewrite (existsb_key _ _ _ Hin).
Qed.

Lemma get_jogo_id d k j : get_jogo d k = Some j -> Jogo.id j = k /\ In j (jogos d).
Proof.
  unfold get_jogo. intros H. apply find_some in H as [Hin E].
  apply Z.eqb_eq in E. auto.
Qed.

Lemma get_jogo_row d j : pk_jogos d -> In j (jogos d) -> get_jogo d (Jogo.id j) = Some j.
Proof.
  unfold pk_jogos, get_jogo. induction (jogos d) as [|r l IH]; simpl; [tauto |].
  intros Hnd [-> | Hin].
  - now rewrite Z.eqb_refl.
  - inversion Hnd; subst.
    destruct (Jogo.id r =? Jogo.id j) eqn:E; auto.
    apply Z.eqb_eq in E. exfalso. apply H1. rewrite E. now apply in_map.
Qed.

(** The first loop passes exactly when every line whose game was loaded
    asks for no more than is available. *)
Lemma sem_estoque_None d jm items :
  sem_estoque d jm items = None <->
  forall k q j, In (k, q) items -> Dict.get Z.eqb jm k = Some j ->
                q <= copias_disponiveis d j.
Proof.
  induction items as [|[k0 q0] items IH]; simpl.
  - split; [intros _ k q j [] | reflexivity].
  - destruct (Dict.get Z.eqb jm k0) as [j0|] eqn:E.
    + destruct (copias_disponiveis d j0 <? q0) eqn:Elt.
      * apply Z.ltb_lt in Elt. split; [discriminate |].
        intros H. specialize (H k0 q0 j0 (or_introl eq_refl) E). lia.
      * apply Z.ltb_ge in Elt. rewrite IH. split.
        -- intros H k q j [Heq | Hin] Hg; [| eauto].
           inversion Heq; subst. rewrite E in Hg. inversion Hg; subst. lia.
        -- intros H k q j Hin. apply H. auto.
    + rewrite IH. split.
      * intros H k q j [Heq | Hin] Hg; [| eauto].
        inversion Heq; subst. congruence.
      * intros H k q j Hin. apply H. auto.
Qed.

(** The game the first loop stops at belongs to the first line that
    fails the check. *)
Lemma sem_estoque_Some d jm items jogo :
  sem_estoque d jm items = Some jogo ->
  exists pre k q post,
    items = (pre ++ (k, q) :: post)%list /\
    Dict.get Z.eqb jm k = Some jogo /\
    copias_disponiveis d jogo < q /\
    forall k' q' j', In (k', q') pre -> Dict.get Z.eqb jm k' = Some j' ->
                     q' <= copias_disponiveis d j'.
Proof.
  induction items as [|[k0 q0] items IH]; simpl; [discriminate |].
  destruct (Dict.get Z.eqb jm k0) as [j0|] eqn:E.
  - destruct (copias_disponiveis d j0 <? q0) eqn:Elt.
    + intros [= <-]. apply Z.ltb_lt in Elt.
      exists [], k0, q0, items. repeat split; auto. intros k' q' j' [].
    + intros H. apply IH in H as (pre & k & q & post & -> & Hg & Hlt & Hpre).
      apply Z.ltb_ge in Elt.
      exists ((k0, q0) :: pre), k, q, post. repeat split; auto.
      intros k' q' j' [Heq | Hin] Hg'; [| eauto].
      inversion Heq; subst. rewrite E in Hg'. inversion Hg'; subst. lia.
  - intros H. apply IH in H as (pre & k & q & post & -> & Hg & Hlt & Hpre).
    exists ((k0, q0) :: pre), k, q, post. repeat split; auto.
    intros k' q' j' [Heq | Hin] Hg'; [| eauto].
    inversion Heq; subst. congruence.
Qed.

End CheckoutFacts.

Module LoopFacts.
Import Http Loja LojaSpec CartFacts CheckoutFacts.

Lemma abate_nonneg t q : 0 <= t - q -> abate t q = t - q.
Proof.
  intros H. unfold abate. cbv zeta.
  destruct (t - q <? 0) eqn:E; auto. apply Z.ltb_lt in E. lia.
Qed.

Lemma not_in_keys {V} (items : list (Z * V)) k k' v :
  ~ In k (map fst items) -> In (k', v) items -> k' <> k.
Proof.
  intros Hn Hin ->. apply Hn. change k with (fst (k, v)). now apply in_map.
Qed.

(** With distinct keys and no line asking for more than the total of
    its game, the clamp changes nothing. *)
Lemma abater_estoque_sem_clamp_eq pid items : forall jm itens,
  NoDup (map fst items) ->
  (forall k q j, In (k, q) items -> Dict.get Z.eqb jm k = Some j ->
                 0 <= Jogo.copias_total j - q) ->
  abater_estoque pid items jm itens = abater_estoque_sem_clamp pid items jm itens.
Proof.
  induction items as [|[k0 q0] items IH]; intros jm itens Hnd H; simpl; auto.
  inversion Hnd; subst.
  destruct (Dict.get Z.eqb jm k0) as [j0|] eqn:E.
  - rewrite abate_nonneg by (eapply H; simpl; eauto).
    apply IH; auto.
    intros k q j Hin Hg.
    rewrite (dict_get_set_other Z.eqb Zeqb_spec) in Hg
      by (eapply not_in_keys; eauto).
    eapply H; simpl; eauto.
  - apply IH; auto. intros k q j Hin. apply H. simpl; auto.
Qed.

(** The objects at the end of the loop. *)
Lemma abater_estoque_sem_clamp_get pid items : forall jm itens k,
  NoDup (map fst items) ->
  Dict.get Z.eqb (fst (abater_estoque_sem_clamp pid items jm itens)) k
  = match Dict.get Z.eqb jm k, Dict.get Z.eqb items k with
    | Some j, Some q =>
        Some (Jogo.with_copias_total j (Jogo.copias_total j - q))
    | o, _ => o
    end.
Proof.
  induction items as [|[k0 q0] items IH]; intros jm itens k Hnd; simpl.
  - destruct (Dict.get Z.eqb jm k); reflexivity.
  - inversion Hnd; subst.
    destruct (Dict.get Z.eqb jm k0) as [j0|] eqn:E.
    + rewrite IH by assumption.
      destruct (k0 =? k) eqn:Ek.
      * apply Z.eqb_eq in Ek. subst k0.
        rewrite (dict_get_set_same Z.eqb Zeqb_spec), E.
        assert (Hn : Dict.get Z.eqb items k = None)
          by now apply (dict_get_None Z.eqb Zeqb_spec).
        rewrite Hn. reflexivity.
      * apply Z.eqb_neq in Ek.
        rewrite (dict_get_set_other Z.eqb Zeqb_spec) by congruence.
        reflexivity.
    + rewrite IH by assumption.
      destruct (k0 =? k) eqn:Ek; auto.
      apply Z.eqb_eq in Ek. subst k0. rewrite E. reflexivity.
Qed.

Lemma flat_map_ext_In {A B} (f g : A -> list B) l :
  (forall x, In x l -> f x = g x) -> flat_map f l = flat_map g l.
Proof.
  induction l as [|x l IH]; simpl; intros H; auto.
  rewrite H, IH; auto.
Qed.

(** The rows of [itens_pedido] at the end of the loop. *)
Lemma abater_estoque_sem_clamp_itens pid items : forall jm itens,
  NoDup (map fst items) ->
  map linha (snd (abater_estoque_sem_clamp pid items jm itens))
  = (map linha itens
     ++ flat_map (fun kv => match Dict.get Z.eqb jm (fst kv) with
                            | Some j => [(pid, Jogo.id j, snd kv)]
                            | None => []
                            end) items)%list.
Proof.
  induction items as [|[k0 q0] items IH]; intros jm itens Hnd; simpl.
  - now rewrite List.app_nil_r.
  - inversion Hnd; subst.
    destruct (Dict.get Z.eqb jm k0) as [j0|] eqn:E.
    + rewrite IH by assumption. rewrite map_app, <- List.app_assoc. simpl.
      do 2 f_equal. apply flat_map_ext_In.
      intros [k q] Hin. simpl.
      rewrite (dict_get_set_other Z.eqb Zeqb_spec)
        by (eapply not_in_keys; eauto).
      reflexivity.
    + now rewrite IH.
Qed.

End LoopFacts.

Section CheckoutClaims.
Import Http Loja LojaSpec CartFacts CheckoutFacts LoopFacts.

Lemma int_empty : Py.int "" = None.
Proof. reflexivity. Qed.

(** The handler once the cart is read, the method is POST and the
    customer of the form is found. *)
Lemma finalizar_compra_post env req st cart s cid cliente :
  get_cart (session_cart st) = Some cart ->
  cart <> [] ->
  method req = POST ->
  form_get (form req) "cliente_id" = Some s ->
  Py.int s = Some cid ->
  get_cliente (db st) cid = Some cliente ->
  finalizar_compra env req st
  = match sem_estoque (db st) (jogos_map (db st) cart) cart with
    | Some jogo =>
        (st, flash_redirect "error" (msg_sem_estoque (db st) jogo) "ver_carrinho")
    | None =>
        match fault env with
        | Some e =>
            (st, flash_redirect "error" ("Erro ao finalizar compra: " ++ e)
                   "ver_carrinho")
        | None =>
            (mkState (registrar_pedido env cliente cart (jogos_map (db st) cart) (db st))
                     (save_cart []),
             flash_redirect "success" "Compra finalizada com sucesso!" "loja")
        end
    end.
Proof.
  intros Ec Hne Hm Hf Hi Hc. unfold finalizar_compra.
  rewrite Ec. destruct cart as [|kv cart]; [congruence |].
  rewrite Hm, Hf. destruct s as [|a s]; [rewrite int_empty in Hi; discriminate |].
  rewrite Hi, Hc. reflexivity.
Qed.

(** Claim C1.  With the cart read from the session, a POST and a
    customer that exists: if some line of the cart asks for more copies
    of its game than are available, the handler returns the state it
    received (tables and session cart), with the error message of the
    first line of the cart that fails the check. *)
Theorem checkout_tudo_ou_nada env req st cart s cid cliente k q j :
  pk_jogos (db st) ->
  get_cart (session_cart st) = Some cart ->
  method req = POST ->
  form_get (form req) "cliente_id" = Some s ->
  Py.int s = Some cid ->
  get_cliente (db st) cid = Some cliente ->
  In (k, q) cart ->
  get_jogo (db st) k = Some j ->
  copias_disponiveis (db st) j < q ->
  exists pre k1 q1 post jogo,
    cart = (pre ++ (k1, q1) :: post)%list /\
    get_jogo (db st) k1 = Some jogo /\
    copias_disponiveis (db st) jogo < q1 /\
    (forall k' q' j', In (k', q') pre -> get_jogo (db st) k' = Some j' ->
                      q' <= copias_disponiveis (db st) j') /\
    finalizar_compra env req st
    = (st, flash_redirect "error" (msg_sem_estoque (db st) jogo) "ver_carrinho").
Proof.
  intros Hpk Ec Hm Hf Hi Hc Hin Hj Hlt.
  assert (Hne : cart <> []) by (intros ->; contradiction).
  rewrite (finalizar_compra_post env req st cart s cid cliente) by assumption.
  destruct (sem_estoque (db st) (jogos_map (db st) cart) cart) as [jogo|] eqn:Es.
  - apply sem_estoque_Some in Es as (pre & k1 & q1 & post & E & Hg & Hl & Hpre).
    assert (Hin1 : In (k1, q1) cart) by (rewrite E; apply in_or_app; simpl; auto).
    exists pre, k1, q1, post, jogo. repeat split; auto.
    + now rewrite <- (jogos_map_line _ cart k1 q1).
    + intros k' q' j' Hin' Hg'. apply (Hpre k' q' j' Hin').
      rewrite (jogos_map_line _ cart k' q'); auto.
      rewrite E. apply in_or_app. auto.
  - exfalso. rewrite sem_estoque_None in Es.
    specialize (Es k q j Hin).
    rewrite (jogos_map_line _ cart k q) in Es by assumption.
    specialize (Es Hj). lia.
Qed.

(** Once the first loop passed on a cart with distinct keys, no line
    asks for more than the total of its game. *)
Lemma sem_estoque_total d jm (cart : Cart) :
  sem_estoque d jm cart = None ->
  forall k q j, In (k, q) cart -> Dict.get Z.eqb jm k = Some j ->
                0 <= Jogo.copias_total j - q.
Proof.
  intros Es k q j Hin Hg. rewrite sem_estoque_None in Es.
  specialize (Es k q j Hin Hg).
  unfold copias_disponiveis in Es. pose proof (alugados_nonneg d j). lia.
Qed.

Lemma clamp_inalcancavel_aux d (cart : Cart) pid itens :
  NoDup (map fst cart) ->
  sem_estoque d (jogos_map d cart) cart = None ->
  abater_estoque pid cart (jogos_map d cart) itens
  = abater_estoque_sem_clamp pid cart (jogos_map d cart) itens.
Proof.
  intros Hnd Es. apply abater_estoque_sem_clamp_eq; auto.
  now apply (sem_estoque_total d).
Qed.

(** Claim C5.  With the cart read from the session and the first loop
    passed, every line leaves its game a total that is not negative,
    so the test of the clamp is false at every line and the second
    loop gives what it would give without the clamp. *)
Theorem clamp_inalcancavel d s cart pid itens :
  get_cart s = Some cart ->
  sem_estoque d (jogos_map d cart) cart = None ->
  (forall k q j, In (k, q) cart ->
                 Dict.get Z.eqb (jogos_map d cart) k = Some j ->
                 (Jogo.copias_total j - q <? 0) = false /\
                 abate (Jogo.copias_total j) q = Jogo.copias_total j - q) /\
  abater_estoque pid cart (jogos_map d cart) itens
  = abater_estoque_sem_clamp pid cart (jogos_map d cart) itens.
Proof.
  intros Ec Es. split.
  - intros k q j Hin Hg.
    pose proof (sem_estoque_total d _ cart Es k q j Hin Hg) as H. split.
    + apply Z.ltb_ge. exact H.
    + now apply abate_nonneg.
  - apply clamp_inalcancavel_aux; auto.
    eapply get_cart_NoDup; eauto.
Qed.

End CheckoutClaims.

Section OrderClaims.
Import Http Loja LojaSpec CartFacts CheckoutFacts LoopFacts.

Lemma abater_estoque_sem_clamp_prefix pid items : forall jm itens,
  exists novos,
    snd (abater_estoque_sem_clamp pid items jm itens) = (itens ++ novos)%list.
Proof.
  induction items as [|[k0 q0] items IH]; intros jm itens; simpl.
  - exists []. now rewrite List.app_nil_r.
  - destruct (Dict.get Z.eqb jm k0) as [j0|]; [| apply IH].
    edestruct IH as (novos & ->). rewrite <- List.app_assoc. eauto.
Qed.

Lemma linhas_via_map d pid (cart : Cart) :
  pk_jogos d ->
  flat_map (fun kv => match Dict.get Z.eqb (jogos_map d cart) (fst kv) with
                      | Some j => [(pid, Jogo.id j, snd kv)]
                      | None => []
                      end) cart
  = linhas_do_pedido d pid cart.
Proof.
  intros Hpk. unfold linhas_do_pedido. apply flat_map_ext_In.
  intros [k q] Hin. simpl.
  rewrite (jogos_map_line d cart k q) by assumption.
  destruct (get_jogo d k) as [j|] eqn:E; auto.
  apply get_jogo_id in E as [-> _]. reflexivity.
Qed.

Lemma gravar_jogos_baixar d (cart : Cart) pid itens :
  pk_jogos d ->
  NoDup (map fst cart) ->
  gravar_jogos (fst (abater_estoque_sem_clamp pid cart (jogos_map d cart) itens))
               (jogos d)
  = map (baixar cart) (jogos d).
Proof.
  intros Hpk Hnd. unfold gravar_jogos. apply map_ext_in.
  intros r Hr. rewrite abater_estoque_sem_clamp_get by assumption.
  unfold baixar. rewrite jogos_map_get by assumption.
  destruct (Dict.get Z.eqb cart (Jogo.id r)) as [q|] eqn:Eq.
  - apply (dict_get_In Z.eqb Zeqb_spec) in Eq.
    rewrite (existsb_key _ _ _ Eq), (get_jogo_row d r) by assumption.
    reflexivity.
  - apply (dict_get_None Z.eqb Zeqb_spec) in Eq.
    destruct (existsb (Z.eqb (Jogo.id r)) (map fst cart)) eqn:Ex.
    + exfalso. apply Eq. apply existsb_exists in Ex as (x & Hx & Ex).
      apply Z.eqb_eq in Ex. now subst.
    + reflexivity.
Qed.

(** Claim C3, as the code has it.  With the cart read from the session
    and not empty, a POST, a customer that exists, every line within
    the available copies of its game and a commit that succeeds:
    one order row is added for the customer; the order gets one line
    for each cart entry whose game is in the table, with the game and
    the quantity of the entry (an entry whose game is not in the table
    gets none); every game of the table with an entry has its total
    lowered by exactly the quantity of the entry, the others keep
    theirs; and the session cart is empty. *)
Theorem checkout_concluido env req st cart s cid cliente :
  pk_jogos (db st) ->
  get_cart (session_cart st) = Some cart ->
  cart <> [] ->
  method req = POST ->
  form_get (form req) "cliente_id" = Some s ->
  Py.int s = Some cid ->
  get_cliente (db st) cid = Some cliente ->
  (forall k q j, In (k, q) cart -> get_jogo (db st) k = Some j ->
                 q <= copias_disponiveis (db st) j) ->
  fault env = None ->
  let r := finalizar_compra env req st in
  let d := db st in
  let d' := db (fst r) in
  let pid := next_id (map Pedido.id (pedidos d)) in
  snd r = flash_redirect "success" "Compra finalizada com sucesso!" "loja" /\
  pedidos d'
  = (pedidos d ++ [Pedido.mk pid (Cliente.id cliente) (today env) "CONCLUIDO"])%list /\
  (exists novos,
     itens_pedido d' = (itens_pedido d ++ novos)%list /\
     map linha novos = linhas_do_pedido d pid cart) /\
  jogos d' = map (baixar cart) (jogos d) /\
  clientes d' = clientes d /\
  locacoes d' = locacoes d /\
  session_cart (fst r) = [] /\
  get_cart (session_cart (fst r)) = Some [].
Proof.
  intros Hpk Ec Hne Hm Hf Hi Hc Hok Hfault. cbv zeta.
  rewrite (finalizar_compra_post env req st cart s cid cliente) by assumption.
  assert (Es : sem_estoque (db st) (jogos_map (db st) cart) cart = None).
  { apply sem_estoque_None. intros k q j Hin Hg.
    rewrite (jogos_map_line _ cart k q) in Hg by assumption. eauto. }
  rewrite Es, Hfault. cbn [fst snd db session_cart].
  unfold registrar_pedido. cbn [Pedido.id].
  set (pid := next_id (map Pedido.id (pedidos (db st)))).
  rewrite (clamp_inalcancavel_aux (db st) cart pid (itens_pedido (db st))
             (get_cart_NoDup _ _ Ec) Es).
  destruct (abater_estoque_sem_clamp pid cart (jogos_map (db st) cart)
              (itens_pedido (db st))) as [jm' itens'] eqn:El.
  cbn [jogos clientes locacoes pedidos itens_pedido].
  pose proof (abater_estoque_sem_clamp_prefix pid cart (jogos_map (db st) cart)
                (itens_pedido (db st))) as (novos & Hn).
  pose proof (abater_estoque_sem_clamp_itens pid cart (jogos_map (db st) cart)
                (itens_pedido (db st)) (get_cart_NoDup _ _ Ec)) as Hl.
  pose proof (gravar_jogos_baixar (db st) cart pid (itens_pedido (db st)) Hpk
                (get_cart_NoDup _ _ Ec)) as Hg.
  rewrite El in Hn, Hl, Hg. cbn [fst snd] in Hn, Hl, Hg.
  repeat split; auto.
  exists novos. split; [exact Hn |].
  rewrite Hn, map_app, linhas_via_map in Hl by assumption.
  now apply app_inv_head in Hl.
Qed.

End OrderClaims.

(** ** Rentals and the derived stock *)

Module RentalFacts.
Import Http Loja LojaSpec.

Lemma filter_filter {A} (f g : A -> bool) l :
  filter f (filter g l) = filter (fun x => g x && f x) l.
Proof.
  induction l as [|x l IH]; simpl; auto.
  destruct (g x); simpl; [destruct (f x) |]; now rewrite IH.
Qed.

Lemma copias_disponiveis_ativas d j :
  copias_disponiveis d j = Jogo.copias_total j - Z.of_nat (ativas d j).
Proof.
  unfold copias_disponiveis, alugados, locacoes_do_jogo, ativas.
  rewrite CheckoutFacts.sum_ones, filter_filter. reflexivity.
Qed.

Lemma ativas_app d j l :
  ativas (com_locacoes d (locacoes d ++ [l])%list) j
  = (ativas d j
     + (if (Locacao.jogo_id l =? Jogo.id j)%Z
           && String.eqb (Locacao.status l) "ALUGADO"
        then 1 else 0))%nat.
Proof.
  unfold ativas. cbn [locacoes com_locacoes].
  rewrite filter_app, length_app. simpl.
  destruct (_ && _); reflexivity.
Qed.

(** After the [UPDATE], the query by key returns the written object. *)
Lemma get_locacao_gravar d n loc loc' :
  get_locacao d n = Some loc ->
  Locacao.id loc' = Locacao.id loc ->
  get_locacao (com_locacoes d (gravar_locacao loc' (locacoes d))) n = Some loc'.
Proof.
  unfold get_locacao, gravar_locacao. cbn [locacoes com_locacoes].
  intros H Hid.
  assert (En : Locacao.id loc' = n).
  { apply find_some in H as [_ H]. apply Z.eqb_eq in H. congruence. }
  rewrite En. clear Hid.
  induction (locacoes d) as [|r rows IH]; simpl in *; [discriminate |].
  destruct (Locacao.id r =? n) eqn:E; simpl.
  - rewrite En, Z.eqb_refl. reflexivity.
  - rewrite E. auto.
Qed.

Lemma gravar_locacao_absent loc rows :
  ~ In (Locacao.id loc) (map Locacao.id rows) -> gravar_locacao loc rows = rows.
Proof.
  unfold gravar_locacao. induction rows as [|r rows IH]; simpl; auto.
  intros H. destruct (Locacao.id r =? Locacao.id loc) eqn:E.
  - apply Z.eqb_eq in E. exfalso. apply H. auto.
  - f_equal. apply IH. tauto.
Qed.

Lemma apagar_locacao_absent loc rows :
  ~ In (Locacao.id loc) (map Locacao.id rows) -> apagar_locacao loc rows = rows.
Proof.
  unfold apagar_locacao. induction rows as [|r rows IH]; simpl; auto.
  intros H. destruct (Locacao.id r =? Locacao.id loc) eqn:E; simpl.
  - apply Z.eqb_eq in E. exfalso. apply H. auto.
  - f_equal. apply IH. tauto.
Qed.

Lemma gravar_locacao_cons loc r rows :
  gravar_locacao loc (r :: rows)
  = (if Locacao.id r =? Locacao.id loc then loc else r) :: gravar_locacao loc rows.
Proof. reflexivity. Qed.

Lemma apagar_locacao_cons loc r rows :
  apagar_locacao loc (r :: rows)
  = if Locacao.id r =? Locacao.id loc then apagar_locacao loc rows
    else r :: apagar_locacao loc rows.
Proof.
  unfold apagar_locacao. simpl.
  destruct (Locacao.id r =? Locacao.id loc); reflexivity.
Qed.

(** Under the primary key the [UPDATE] touches the one row of the
    rental: a count over the table loses the old row and gains the new
    one. *)
Lemma conta_gravar f loc loc' rows :
  NoDup (map Locacao.id rows) -> In loc rows ->
  Locacao.id loc' = Locacao.id loc ->
  (conta f (gravar_locacao loc' rows) + um (f loc)
   = conta f rows + um (f loc'))%nat.
Proof.
  unfold conta. intros Hnd Hin Hid.
  induction rows as [|r rows IH]; [contradiction |].
  inversion Hnd; subst. rewrite gravar_locacao_cons.
  destruct Hin as [-> | Hin].
  - rewrite Hid, Z.eqb_refl.
    rewrite gravar_locacao_absent by (rewrite Hid; assumption).
    simpl. unfold um. destruct (f loc), (f loc'); simpl; lia.
  - destruct (Locacao.id r =? Locacao.id loc') eqn:E.
    + apply Z.eqb_eq in E. exfalso. apply H1. rewrite E, Hid. now apply in_map.
    + simpl. specialize (IH H2 Hin). destruct (f r); simpl; lia.
Qed.

(** Under the primary key the [DELETE] removes the one row of the
    rental. *)
Lemma conta_apagar f loc rows :
  NoDup (map Locacao.id rows) -> In loc rows ->
  (conta f (apagar_locacao loc rows) + um (f loc) = conta f rows)%nat.
Proof.
  unfold conta. intros Hnd Hin.
  induction rows as [|r rows IH]; [contradiction |].
  inversion Hnd; subst. rewrite apagar_locacao_cons.
  destruct Hin as [-> | Hin].
  - rewrite Z.eqb_refl.
    rewrite apagar_locacao_absent by assumption.
    simpl. unfold um. destruct (f loc); simpl; lia.
  - destruct (Locacao.id r =? Locacao.id loc) eqn:E.
    + apply Z.eqb_eq in E. exfalso. apply H1. rewrite E. now apply in_map.
    + simpl. specialize (IH H2 Hin). destruct (f r); simpl; lia.
Qed.

Lemma get_locacao_In d n loc : get_locacao d n = Some loc -> In loc (locacoes d).
Proof. unfold get_locacao. intros H. now apply find_some in H. Qed.

Lemma ativas_conta d j : ativas d j = conta (ocupa j) (locacoes d).
Proof. reflexivity. Qed.

End RentalFacts.

Section RentalClaims.
Import Http Loja LojaSpec RentalFacts.
Variable strptime : string -> option date.

(** Claim C2.  In every state the application reaches, whatever rental
    was created, edited, returned or deleted before, the available
    copies of a game are its total minus the number of its rentals
    whose status is ALUGADO; and one more rental row lowers the value
    by one when it is a rental of the game with status ALUGADO, and
    leaves it as it is with any other status. *)
Theorem copias_disponiveis_derivadas (cs : list (Env * Chamada)) (st : State)
  (j : Jogo.t) :
  let d := db (atender_todas strptime cs st) in
  copias_disponiveis d j = Jogo.copias_total j - Z.of_nat (ativas d j) /\
  forall l,
    copias_disponiveis (com_locacoes d (locacoes d ++ [l])%list) j
    = copias_disponiveis d j
      - (if (Locacao.jogo_id l =? Jogo.id j)
            && String.eqb (Locacao.status l) "ALUGADO"
         then 1 else 0).
Proof.
  cbv zeta. split.
  - apply copias_disponiveis_ativas.
  - intros l. rewrite !copias_disponiveis_ativas, ativas_app.
    destruct (_ && _); lia.
Qed.

(** Claim C10.  The return of a rental whose status is already
    DEVOLVIDO gives back the state it received, so the rental keeps its
    status and its return date and nothing is written, and the only
    message is the informational one. *)
Theorem devolver_locacao_ja_devolvida env n st loc :
  get_locacao (db st) n = Some loc ->
  Locacao.status loc = "DEVOLVIDO" ->
  devolver_locacao env n st
  = (st, mkReply [("info", "Essa locação já está marcada como devolvida.")]
               (Redirect "listar_locacoes" None))
  /\ get_locacao (db (fst (devolver_locacao env n st))) n = Some loc.
Proof.
  intros Hg Hs. unfold devolver_locacao. rewrite Hg, Hs. simpl.
  split; [reflexivity | exact Hg].
Qed.

(** Returning twice is returning once: after a return that was
    committed, a second return changes nothing. *)
Lemma devolver_locacao_idempotente env env' n st :
  fault env = None ->
  fst (devolver_locacao env' n (fst (devolver_locacao env n st)))
  = fst (devolver_locacao env n st).
Proof.
  intros Hf. unfold devolver_locacao at 2 3.
  destruct (get_locacao (db st) n) as [loc|] eqn:Hg.
  - destruct (String.eqb (Locacao.status loc) "DEVOLVIDO") eqn:Hs.
    + simpl. unfold devolver_locacao. now rewrite Hg, Hs.
    + unfold commit_locacao. rewrite Hf. simpl.
      unfold devolver_locacao. cbn [db].
      rewrite (get_locacao_gravar (db st) n loc) by (assumption || reflexivity).
      reflexivity.
  - simpl. unfold devolver_locacao. now rewrite Hg.
Qed.

(** A committed return of a rental that was ALUGADO gives its game one
    more available copy and leaves the other games as they were. *)
Lemma devolver_locacao_libera env n st loc j :
  pk_locacoes (db st) ->
  get_locacao (db st) n = Some loc ->
  Locacao.status loc = "ALUGADO" ->
  fault env = None ->
  copias_disponiveis (db (fst (devolver_locacao env n st))) j
  = copias_disponiveis (db st) j
    + (if Locacao.jogo_id loc =? Jogo.id j then 1 else 0).
Proof.
  intros Hpk Hg Hs Hf. unfold devolver_locacao, commit_locacao.
  rewrite Hg, Hs, Hf.
  change (String.eqb "ALUGADO" "DEVOLVIDO") with false. cbn [fst db].
  rewrite !copias_disponiveis_ativas, !ativas_conta. cbn [locacoes com_locacoes].
  pose proof (conta_gravar (ocupa j) loc
                (Locacao.with_devolucao loc "DEVOLVIDO" (Some (today env)))
                (locacoes (db st)) Hpk (get_locacao_In _ _ _ Hg) eq_refl) as H.
  unfold ocupa at 2 4 in H. cbn [Locacao.with_devolucao Locacao.jogo_id Locacao.status] in H.
  rewrite Hs in H. cbn [String.eqb] in H. rewrite andb_false_r, andb_true_r in H.
  unfold um in H. simpl in H.
  destruct (Locacao.jogo_id loc =? Jogo.id j); lia.
Qed.

(** A committed deletion of a rental that was ALUGADO gives its game
    one more available copy. *)
Lemma deletar_locacao_libera env n st loc j :
  pk_locacoes (db st) ->
  get_locacao (db st) n = Some loc ->
  Locacao.status loc = "ALUGADO" ->
  fault env = None ->
  copias_disponiveis (db (fst (deletar_locacao env n st))) j
  = copias_disponiveis (db st) j
    + (if Locacao.jogo_id loc =? Jogo.id j then 1 else 0).
Proof.
  intros Hpk Hg Hs Hf. unfold deletar_locacao.
  rewrite Hg, Hf. cbn [fst db].
  rewrite !copias_disponiveis_ativas, !ativas_conta. cbn [locacoes com_locacoes].
  pose proof (conta_apagar (ocupa j) loc (locacoes (db st)) Hpk
                (get_locacao_In _ _ _ Hg)) as H.
  unfold ocupa at 2 in H. rewrite Hs in H. cbn [String.eqb] in H.
  rewrite andb_true_r in H. unfold um in H.
  destruct (Locacao.jogo_id loc =? Jogo.id j); lia.
Qed.

(** Claim C7.  A POST that edits an existing rental and is committed:
    with status DEVOLVIDO and a date in the form that parses, the
    rental gets that date as its actual return date; with status
    DEVOLVIDO and no date in the form (absent or empty), it gets
    today's date; with any other status it gets none.  In each case
    the status is the one of the form. *)
Theorem editar_locacao_devolucao env n req st loc :
  get_locacao (db st) n = Some loc ->
  method req = POST ->
  fault env = None ->
  let status := form_get_default (form req) "status" "ALUGADO" in
  let campo := form_get (form req) "data_devolucao_real" in
  let d' := db (fst (editar_locacao strptime env n req st)) in
  (status = "DEVOLVIDO" ->
   forall d, truthy campo = true -> strptime (text campo) = Some d ->
             get_locacao d' n = Some (Locacao.with_devolucao loc "DEVOLVIDO" (Some d)))
  /\
  (status = "DEVOLVIDO" -> truthy campo = false ->
   get_locacao d' n
   = Some (Locacao.with_devolucao loc "DEVOLVIDO" (Some (today env))))
  /\
  (status <> "DEVOLVIDO" ->
   get_locacao d' n = Some (Locacao.with_devolucao loc status None)).
Proof.
  intros Hg Hm Hf. cbv zeta. unfold editar_locacao. rewrite Hg, Hm. cbv zeta.
  unfold commit_locacao. rewrite Hf.
  repeat split.
  - intros Hs d Ht Hp. rewrite Hs, Ht, Hp. simpl.
    now apply get_locacao_gravar with (loc := loc).
  - intros Hs Ht. rewrite Hs, Ht. simpl.
    now apply get_locacao_gravar with (loc := loc).
  - intros Hs. apply String.eqb_neq in Hs. rewrite Hs. simpl.
    now apply get_locacao_gravar with (loc := loc).
Qed.

End RentalClaims.

Section RentalCreation.
Import Http Loja LojaSpec RentalFacts.
Variable strptime : string -> option date.

Lemma truthy_int o n : Py.int (text o) = Some n -> truthy o = true.
Proof.
  destruct o as [[|a s]|]; simpl; auto; intros H; discriminate H.
Qed.

(** Claim C6.  A POST whose [jogo_id] names a game of the table.
    With a status other than DEVOLVIDO and no copy of the game
    available, the handler returns the state it received and an error
    message, which is the one about the copies when the rest of the
    form is valid.  With status DEVOLVIDO, a valid form and a commit
    that succeeds, the rental row is added, returned today, whatever
    the available copies of the game are. *)
Theorem cadastrar_locacao_disponibilidade env req st jid jogo :
  method req = POST ->
  Py.int (text (form_get (form req) "jogo_id")) = Some jid ->
  get_jogo (db st) jid = Some jogo ->
  let status := form_get_default (form req) "status" "ALUGADO" in
  let r := cadastrar_locacao strptime env req st in
  let valido cliente retirada prevista :=
    exists cid,
      Py.int (text (form_get (form req) "cliente_id")) = Some cid /\
      get_cliente (db st) cid = Some cliente /\
      truthy (form_get (form req) "data_retirada") = true /\
      strptime (text (form_get (form req) "data_retirada")) = Some retirada /\
      (if truthy (form_get (form req) "data_devolucao_prevista")
       then option_map Some
              (strptime (text (form_get (form req) "data_devolucao_prevista")))
       else Some None) = Some prevista in
  (status <> "DEVOLVIDO" -> copias_disponiveis (db st) jogo <= 0 ->
   fst r = st /\
   exists m, snd r = flash_redirect "error" m "cadastrar_locacao") /\
  (status <> "DEVOLVIDO" -> copias_disponiveis (db st) jogo <= 0 ->
   forall cliente retirada prevista, valido cliente retirada prevista ->
   r = (st, flash_redirect "error" (msg_sem_copias jogo) "cadastrar_locacao")) /\
  (status = "DEVOLVIDO" -> fault env = None ->
   forall cliente retirada prevista, valido cliente retirada prevista ->
   snd r = flash_redirect "success" "Locação registrada com sucesso!"
                          "listar_locacoes" /\
   session_cart (fst r) = session_cart st /\
   db (fst r)
   = com_locacoes (db st)
       (locacoes (db st)
        ++ [Locacao.mk (next_id (map Locacao.id (locacoes (db st))))
                       (Cliente.id cliente) (Jogo.id jogo) retirada prevista
                       (Some (today env)) "DEVOLVIDO"])%list).
Proof.
  intros Hm Hj Hg. cbv zeta.
  assert (Htj := truthy_int _ _ Hj).
  split; [| split].
  - intros Hs Hd. apply String.eqb_neq in Hs. apply Z.leb_le in Hd.
    unfold cadastrar_locacao. rewrite Hm. cbv zeta.
    rewrite Hj, Hg, Hs, Hd, Htj. simpl negb at 2. rewrite andb_true_l.
    repeat match goal with
           | |- context [match ?x with _ => _ end] =>
               destruct x; try (split; [reflexivity | eexists; reflexivity])
           end.
  - intros Hs Hd cliente retirada prevista (cid & Hc & Hgc & Htr & Hr & Hp).
    apply String.eqb_neq in Hs. apply Z.leb_le in Hd.
    unfold cadastrar_locacao. rewrite Hm. cbv zeta.
    rewrite Hj, Hg, Hc, Hgc, Htr, Hr, Hp, Hs, Hd, Htj, (truthy_int _ _ Hc).
    reflexivity.
  - intros Hs Hf cliente retirada prevista (cid & Hc & Hgc & Htr & Hr & Hp).
    unfold cadastrar_locacao. rewrite Hm. cbv zeta.
    rewrite Hj, Hg, Hc, Hgc, Htr, Hr, Hp, Hs, Hf, Htj, (truthy_int _ _ Hc).
    simpl. auto.
Qed.

End RentalCreation.

Section Scenarios.
Import Http Loja LojaSpec Exemplos.

Example int_values :
  Py.int "42" = Some 42 /\ Py.int " -007 " = Some (-7) /\ Py.int "1_000" = Some 1000
  /\ Py.int "+5" = Some 5.
Proof. repeat split; reflexivity. Qed.

Example int_rejects :
  Py.int "" = None /\ Py.int "abc" = None /\ Py.int "1__0" = None
  /\ Py.int "- 5" = None /\ Py.int "5_" = None /\ Py.int "-A" = None.
Proof. repeat split; reflexivity. Qed.

Example str_values : Py.str 0 = "0" /\ Py.str 120 = "120" /\ Py.str (-4) = "-4".
Proof. repeat split; reflexivity. Qed.

(** The second registration repeats the e-mail of the first and is
    refused; the numbers given are 1 and 2. *)
Example matriculas_gec :
  Faculdade.matriculas_do_curso "GEC"
    (Faculdade.registrar_todos pedidos_de_matricula turma)
  = ["GEC1"; "GEC2"]
  /\ Faculdade.matriculas_do_curso "GEA"
       (Faculdade.registrar_todos pedidos_de_matricula turma)
     = ["GEA1"; "GEA2"].
Proof. split; vm_compute; reflexivity. Qed.

Example matricula_apos_sufixo_invalido :
  Faculdade.gerar_matricula turma_irregular "GEC" = "GEC1".
Proof. vm_compute. reflexivity. Qed.

(** Two copies and no rental: two available; one rented: one; after
    its return: two again. *)
Example duas_copias :
  let st0 := mkState (mkDB [tetris] [ana] [] [] []) [] in
  let st1 := fst (cadastrar_locacao strptime hoje
                    (post [("cliente_id", "1"); ("jogo_id", "2");
                           ("data_retirada", "2024-05-01")]) st0) in
  let st2 := fst (devolver_locacao hoje 1 st1) in
  copias_disponiveis (db st0) tetris = 2 /\
  copias_disponiveis (db st1) tetris = 1 /\
  copias_disponiveis (db st2) tetris = 2.
Proof. vm_compute. repeat split; reflexivity. Qed.

(** Three copies asked of a game with one: the checkout fails and the
    state is the one received. *)
Example tres_de_uma :
  fst (finalizar_compra hoje compra loja_sem_estoque) = loja_sem_estoque /\
  flashes (snd (finalizar_compra hoje compra loja_sem_estoque))
  = [("error", msg_sem_estoque (db loja_sem_estoque) celeste)].
Proof. vm_compute. split; reflexivity. Qed.

End Scenarios.

(** ** The claims at the worked examples *)

Section Witnesses.
Import Http Loja LojaSpec Exemplos CartFacts CheckoutFacts LoopFacts RentalFacts.

Ltac distinct_keys :=
  repeat (constructor; [simpl; intuition discriminate |]); constructor.

Lemma pk_jogos_com_estoque : pk_jogos (db loja_com_estoque).
Proof. unfold pk_jogos. simpl. distinct_keys. Defined.

Lemma pk_jogos_sem_estoque : pk_jogos (db loja_sem_estoque).
Proof. unfold pk_jogos. simpl. distinct_keys. Defined.

Lemma checkout_tudo_ou_nada_witness :
  exists pre k1 q1 post jogo,
    [(1, 3)] = (pre ++ (k1, q1) :: post)%list /\
    get_jogo (db loja_sem_estoque) k1 = Some jogo /\
    copias_disponiveis (db loja_sem_estoque) jogo < q1 /\
    (forall k' q' j', In (k', q') pre ->
                      get_jogo (db loja_sem_estoque) k' = Some j' ->
                      q' <= copias_disponiveis (db loja_sem_estoque) j') /\
    finalizar_compra hoje compra loja_sem_estoque
    = (loja_sem_estoque,
       flash_redirect "error" (msg_sem_estoque (db loja_sem_estoque) jogo)
                      "ver_carrinho").
Proof.
  apply (checkout_tudo_ou_nada hoje compra loja_sem_estoque [(1, 3)] "1" 1 ana
                               1 3 celeste).
  - exact pk_jogos_sem_estoque.
  - reflexivity.
  - reflexivity.
  - reflexivity.
  - reflexivity.
  - reflexivity.
  - simpl. auto.
  - reflexivity.
  - vm_compute. reflexivity.
Defined.

Lemma checkout_concluido_witness :
  let r := finalizar_compra hoje compra loja_com_estoque in
  snd r = flash_redirect "success" "Compra finalizada com sucesso!" "loja" /\
  pedidos (db (fst r)) = [Pedido.mk 1 1 739100 "CONCLUIDO"] /\
  (exists novos,
     itens_pedido (db (fst r)) = novos /\
     map linha novos = [(1, 1, 2); (1, 2, 1)]) /\
  map Jogo.copias_total (jogos (db (fst r))) = [3; 1] /\
  session_cart (fst r) = [].
Proof.
  destruct (checkout_concluido hoje compra loja_com_estoque [(1, 2); (2, 1)]
              "1" 1 ana)
    as (H1 & H2 & (novos & H3 & H4) & H5 & _ & _ & H6 & _).
  - exact pk_jogos_com_estoque.
  - reflexivity.
  - discriminate.
  - reflexivity.
  - reflexivity.
  - reflexivity.
  - reflexivity.
  - intros k q j [E | [E | []]] Hj; inversion E; subst;
      vm_compute in Hj; inversion Hj; subst; vm_compute; discriminate.
  - reflexivity.
  - cbv zeta.
    split; [exact H1 |]. split; [exact H2 |].
    split; [exists novos; split; [exact H3 | exact H4] |].
    split; [rewrite H5; reflexivity | exact H6].
Defined.

Lemma clamp_inalcancavel_witness :
  (forall k q j, In (k, q) [(1, 2); (2, 1)] ->
     Dict.get Z.eqb (jogos_map (db loja_com_estoque) [(1, 2); (2, 1)]) k = Some j ->
     (Jogo.copias_total j - q <? 0) = false /\
     abate (Jogo.copias_total j) q = Jogo.copias_total j - q) /\
  abater_estoque 1 [(1, 2); (2, 1)]
                 (jogos_map (db loja_com_estoque) [(1, 2); (2, 1)]) []
  = abater_estoque_sem_clamp 1 [(1, 2); (2, 1)]
      (jogos_map (db loja_com_estoque) [(1, 2); (2, 1)]) [].
Proof.
  apply (clamp_inalcancavel (db loja_com_estoque)
                            (session_cart loja_com_estoque)
                            [(1, 2); (2, 1)] 1 []).
  - reflexivity.
  - vm_compute. reflexivity.
Defined.




Lemma devolver_locacao_ja_devolvida_witness :
  devolver_locacao hoje 2 loja_alugada
  = (loja_alugada,
     mkReply [("info", "Essa locação já está marcada como devolvida.")]
             (Redirect "listar_locacoes" None))
  /\ get_locacao (db (fst (devolver_locacao hoje 2 loja_alugada))) 2
     = Some (aluguel 2 1 "DEVOLVIDO" (Some 739050)).
Proof.
  apply (devolver_locacao_ja_devolvida hoje 2 loja_alugada
           (aluguel 2 1 "DEVOLVIDO" (Some 739050))).
  - reflexivity.
  - reflexivity.
Defined.

Lemma editar_locacao_devolucao_witness :
  get_locacao
    (db (fst (editar_locacao strptime hoje 1
                (post [("status", "DEVOLVIDO");
                       ("data_devolucao_real", "2024-05-08")]) loja_alugada))) 1
  = Some (aluguel 1 1 "DEVOLVIDO" (Some 738649))
  /\
  get_locacao
    (db (fst (editar_locacao strptime hoje 1
                (post [("status", "DEVOLVIDO"); ("data_devolucao_real", "")])
                loja_alugada))) 1
  = Some (aluguel 1 1 "DEVOLVIDO" (Some 739100))
  /\
  get_locacao
    (db (fst (editar_locacao strptime hoje 2 (post [("status", "ALUGADO")])
                loja_alugada))) 2
  = Some (aluguel 2 1 "ALUGADO" None).
Proof.
  split; [| split].
  - exact (proj1 (editar_locacao_devolucao strptime hoje 1
                    (post [("status", "DEVOLVIDO");
                           ("data_devolucao_real", "2024-05-08")])
                    loja_alugada (aluguel 1 1 "ALUGADO" None)
                    eq_refl eq_refl eq_refl)
                 eq_refl 738649 eq_refl eq_refl).
  - exact (proj1 (proj2 (editar_locacao_devolucao strptime hoje 1
                    (post [("status", "DEVOLVIDO"); ("data_devolucao_real", "")])
                    loja_alugada (aluguel 1 1 "ALUGADO" None)
                    eq_refl eq_refl eq_refl))
                 eq_refl eq_refl).
  - apply (proj2 (proj2 (editar_locacao_devolucao strptime hoje 2
                    (post [("status", "ALUGADO")])
                    loja_alugada (aluguel 2 1 "DEVOLVIDO" (Some 739050))
                    eq_refl eq_refl eq_refl))).
    simpl. discriminate.
Defined.

Lemma cadastrar_locacao_disponibilidade_witness :
  copias_disponiveis (db loja_alugada) celeste = 0 /\
  cadastrar_locacao strptime hoje (alugar "ALUGADO") loja_alugada
  = (loja_alugada,
     flash_redirect "error" (msg_sem_copias celeste) "cadastrar_locacao")
  /\
  locacoes (db (fst (cadastrar_locacao strptime hoje (alugar "DEVOLVIDO")
                                       loja_alugada)))
  = (locacoes (db loja_alugada)
     ++ [Locacao.mk 3 1 1 738642 (Some 738649) (Some 739100) "DEVOLVIDO"])%list.
Proof.
  split; [reflexivity |]. split.
  - apply (proj1 (proj2 (cadastrar_locacao_disponibilidade strptime hoje
                           (alugar "ALUGADO") loja_alugada 1 celeste
                           eq_refl eq_refl eq_refl)))
      with (cliente := ana) (retirada := 738642) (prevista := Some 738649).
    + simpl. discriminate.
    + vm_compute. discriminate.
    + exists 1. repeat split; reflexivity.
  - destruct (proj2 (proj2 (cadastrar_locacao_disponibilidade strptime hoje
                              (alugar "DEVOLVIDO") loja_alugada 1 celeste
                              eq_refl eq_refl eq_refl))
                eq_refl eq_refl ana 738642 (Some 738649))
      as (_ & _ & H).
    + exists 1. repeat split; reflexivity.
    + rewrite H. reflexivity.
Defined.

(** Claim C3 as it is written fails on a cart with an entry whose game
    is not in the table, which [adicionar_ao_carrinho] accepts: the
    checkout succeeds, the cart has two entries and the order has one
    line. *)
Lemma checkout_item_orfao :
  let vazio := mkState (db loja_item_orfao) [] in
  let st :=
    atender_todas strptime
      [(hoje, AdicionarAoCarrinho 1 (post [("quantidade", "2")]));
       (hoje, AdicionarAoCarrinho 999 (post []))] vazio in
  let r := finalizar_compra hoje compra st in
  st = loja_item_orfao /\
  get_cart (session_cart st) = Some [(1, 2); (999, 1)] /\
  snd r = flash_redirect "success" "Compra finalizada com sucesso!" "loja" /\
  List.length (pedidos (db (fst r))) = 1%nat /\
  map linha (itens_pedido (db (fst r))) = [(1, 1, 2)] /\
  List.length (itens_pedido (db (fst r))) <> List.length [(1, 2); (999, 1)].
Proof.
  vm_compute. repeat split; try reflexivity. discriminate.
Qed.

End Witnesses.

(* ================================================================= *)
(** * Further properties of the student registry *)

Module RegistryFacts.
Import Http Faculdade FaculdadeSpec FaculdadeFacts.

(** What a registration does to the table, with the course of the new
    row. *)
Lemma novo_aluno_row env req db :
  fst (novo_aluno env req db) = db \/
  exists n e,
    curso_valido (curso_pedido req) = true /\
    unique_ok db (mkAluno (next_id db) n e (curso_pedido req)
                          (gerar_matricula db (curso_pedido req))) = true /\
    fst (novo_aluno env req db)
    = (db ++ [mkAluno (next_id db) n e (curso_pedido req)
                      (gerar_matricula db (curso_pedido req))])%list.
Proof.
  unfold novo_aluno, curso_pedido. destruct (method req); auto.
  destruct (_ || _); auto.
  destruct (curso_valido _) eqn:Ev; simpl; auto.
  unfold add_commit. destruct (fault env); auto.
  destruct (unique_ok _ _) eqn:Eu; auto.
  right. simpl. eauto.
Qed.

Lemma gerar_numerada db c :
  curso_valido c = true ->
  forall i n e, numerada (mkAluno i n e c (gerar_matricula db c)).
Proof.
  intros Hc i n e. split; simpl; auto. unfold gerar_matricula. eauto.
Qed.

Lemma get_aluno_In db n a : get_aluno db n = Some a -> In a db /\ id a = n.
Proof.
  unfold get_aluno. intros H. apply find_some in H as [Hin E].
  apply Z.eqb_eq in E. auto.
Qed.

(** What an edit does to the table: nothing, or the rows with the key
    of the student replaced by a row that keeps the key and either keeps
    the course and the matriculation or takes a valid course and the
    matriculation of the allocator. *)
Lemma editar_aluno_cases env k req db :
  fst (editar_aluno env k req db) = db \/
  exists aluno novo,
    get_aluno db k = Some aluno /\
    id novo = id aluno /\
    ((curso novo = curso aluno /\ matricula novo = matricula aluno) \/
     (curso_valido (curso novo) = true /\
      matricula novo = gerar_matricula db (curso novo))) /\
    fst (editar_aluno env k req db)
    = map (fun r => if id r =? id novo then novo else r) db.
Proof.
  unfold editar_aluno.
  destruct (get_aluno db k) as [aluno|] eqn:Eg; auto.
  destruct (method req); auto.
  destruct (_ || _); auto.
  destruct (curso_valido _) eqn:Ev; simpl; auto.
  unfold update_commit. destruct (fault env); auto.
  match goal with |- context [unique_ok_update db ?a] => set (novo := a) end.
  destruct (unique_ok_update db novo); auto.
  right. exists aluno, novo. split; [reflexivity |]. cbn [fst].
  subst novo.
  destruct (negb _); cbn [id curso matricula]; auto 6.
Qed.

Lemma deletar_aluno_cases env k db :
  fst (deletar_aluno env k db) = db \/
  exists aluno,
    get_aluno db k = Some aluno /\
    fst (deletar_aluno env k db) = filter (fun r => negb (id r =? id aluno)) db.
Proof.
  unfold deletar_aluno.
  destruct (get_aluno db k) as [aluno|] eqn:Eg; auto.
  destruct (fault env); eauto.
Qed.

Lemma atender_bem_formado env c db :
  bem_formado db -> bem_formado (fst (atender env c db)).
Proof.
  unfold bem_formado. intros H. destruct c as [req | k req | k]; simpl.
  - destruct (novo_aluno_row env req db) as [-> | (n & e & Hc & _ & ->)]; auto.
    apply Forall_app. split; auto.
    constructor; [| constructor]. now apply gerar_numerada.
  - destruct (editar_aluno_cases env k req db)
      as [-> | (aluno & novo & Hg & Hid & Hn & ->)]; auto.
    apply get_aluno_In in Hg as [Hin _].
    assert (Hnum : numerada novo).
    { rewrite Forall_forall in H. specialize (H aluno Hin).
      destruct Hn as [[Ec Em] | [Ev Em]].
      - destruct H as [Hv (n & Hm)]. split; [now rewrite Ec |].
        exists n. now rewrite Em, Ec.
      - split; auto. rewrite Em. unfold gerar_matricula. eauto. }
    apply Forall_map. eapply Forall_impl; [| exact H].
    intros r Hr. simpl. destruct (id r =? id novo); auto.
  - destruct (deletar_aluno_cases env k db) as [-> | (aluno & _ & ->)]; auto.
    now apply Forall_filter.
Qed.

End RegistryFacts.

Section RegistryProperties.
Import Http Faculdade FaculdadeSpec FaculdadeFacts RegistryFacts.

(** Every row of the table keeps the shape the application writes: over
    any requests of the three writing routes, served one after the
    other, each student has a course of the fixed set and a
    matriculation made of that course code and a decimal number. *)
Theorem registro_bem_formado (cs : list (Env * Chamada)) (db : DB) :
  bem_formado db -> bem_formado (atender_todas cs db).
Proof.
  revert db. induction cs as [|[env c] cs IH]; intros db H; simpl; auto.
  apply IH. now apply atender_bem_formado.
Qed.

(** On a table of that shape the allocator never falls back: the
    latest student of the course has the course code in front, the rest
    of the matriculation is read as a number [n], and the allocator
    gives the course code followed by [n + 1]. *)
Theorem gerar_matricula_sem_desvio (db : DB) (c : string) (u : Aluno) :
  bem_formado db ->
  first_by_id_desc (filter (do_curso c) db) = Some u ->
  Py.startswith (matricula u) c = true /\
  exists n,
    matricula u = c ++ Py.str n /\
    Py.int (Py.slice_from (String.length c) (matricula u)) = Some n /\
    gerar_matricula db c = c ++ Py.str (n + 1).
Proof.
  intros Hb Hu.
  assert (Hin : In u (filter (do_curso c) db)).
  { rewrite first_by_id_desc_fold in Hu.
    apply fold_pick_bound in Hu as [Hu | Hu]; [discriminate | exact Hu]. }
  apply filter_In in Hin as [Hin Hc].
  unfold do_curso in Hc. apply String.eqb_eq in Hc.
  unfold bem_formado in Hb. rewrite Forall_forall in Hb.
  destruct (Hb u Hin) as [_ (n & Hm)]. rewrite Hc in Hm.
  split; [rewrite Hm; apply startswith_app |].
  exists n. split; [exact Hm |].
  assert (Hi : Py.int (Py.slice_from (String.length c) (matricula u)) = Some n)
    by (rewrite Hm, slice_from_app; apply int_str).
  split; [exact Hi |].
  unfold gerar_matricula, proximo. rewrite Hu, Hi, Hm, startswith_app.
  reflexivity.
Qed.

End RegistryProperties.

Module RegistryFacts2.
Import Http Faculdade FaculdadeSpec FaculdadeFacts RegistryFacts.

Lemma unique_ok_clash db a b :
  In b db -> matricula b = matricula a -> unique_ok db a = false.
Proof.
  intros Hin Hm. unfold unique_ok.
  destruct (forallb _ db) eqn:E; auto.
  rewrite forallb_forall in E. specialize (E b Hin).
  rewrite Hm, String.eqb_refl, andb_false_r in E. discriminate.
Qed.

Lemma find_fresh db k :
  Forall (fun b => id b < k) db -> find (fun a => id a =? k) db = None.
Proof.
  induction 1 as [|b db Hb _ IH]; simpl; auto.
  destruct (id b =? k) eqn:E; auto. apply Z.eqb_eq in E. lia.
Qed.

Lemma get_aluno_last db a :
  Forall (fun b => id b < id a) db -> get_aluno (db ++ [a])%list (id a) = Some a.
Proof.
  unfold get_aluno. induction 1 as [|b db Hb _ IH]; simpl.
  - now rewrite Z.eqb_refl.
  - destruct (id b =? id a) eqn:E; auto. apply Z.eqb_eq in E. lia.
Qed.

Lemma filter_fresh db k :
  Forall (fun b => id b < k) db -> filter (fun r => negb (id r =? k)) db = db.
Proof.
  induction 1 as [|b db Hb _ IH]; simpl; auto.
  destruct (id b =? k) eqn:E; simpl.
  - apply Z.eqb_eq in E. lia.
  - now rewrite IH.
Qed.

Lemma app_last_inv {A} (l : list A) x : l <> (l ++ [x])%list.
Proof.
  intros H. apply (f_equal (@List.length A)) in H.
  rewrite length_app in H. simpl in H. lia.
Qed.

(** After the [UPDATE], the query by key returns the written row. *)
Lemma get_aluno_update db k aluno novo :
  get_aluno db k = Some aluno ->
  id novo = id aluno ->
  get_aluno (map (fun r => if id r =? id novo then novo else r) db) k = Some novo.
Proof.
  unfold get_aluno. intros H Hid.
  assert (En : id novo = k).
  { apply find_some in H as [_ H]. apply Z.eqb_eq in H. congruence. }
  rewrite En. clear Hid.
  induction db as [|r db IH]; simpl in *; [discriminate |].
  destruct (id r =? k) eqn:E; simpl.
  - rewrite En, Z.eqb_refl. reflexivity.
  - rewrite E. auto.
Qed.

End RegistryFacts2.

Section RegistryProperties2.
Import Http Faculdade FaculdadeSpec FaculdadeFacts RegistryFacts RegistryFacts2.

(** When some row already holds the matriculation the allocator gives
    for a course, every registration for that course is refused and the
    table stays as it is, however many are tried. *)
Theorem alocador_travado (db : DB) (c : string) (rs : list (Env * Request)) :
  (exists b, In b db /\ matricula b = gerar_matricula db c) ->
  Forall (fun er => curso_pedido (snd er) = c) rs ->
  registrar_todos rs db = db.
Proof.
  intros (b & Hin & Hm) Hrs.
  induction Hrs as [|[env req] rs Hc _ IH]; simpl; auto.
  simpl in Hc.
  destruct (novo_aluno_row env req db) as [-> | (n & e & _ & Hu & _)]; auto.
  rewrite Hc in Hu.
  rewrite (unique_ok_clash db _ b Hin) in Hu by (simpl; exact Hm).
  discriminate.
Qed.

(** Deleting the student a registration has just added gives back the
    table of before, so the next registration of that course receives
    the same matriculation again. *)
Theorem matricula_reutilizada (env env' : Env) (req : Request) (db : DB)
  (a : Aluno) :
  fst (novo_aluno env req db) = (db ++ [a])%list ->
  fault env' = None ->
  fst (deletar_aluno env' (id a) (fst (novo_aluno env req db))) = db /\
  gerar_matricula db (curso a) = matricula a.
Proof.
  intros Hn Hf.
  destruct (novo_aluno_row env req db) as [E | (n & e & _ & _ & E)].
  - rewrite E in Hn. exfalso. exact (app_last_inv db a Hn).
  - rewrite Hn in E. apply app_inv_head in E. inversion E as [Ea].
    rewrite Hn. clear E Hn. subst a. cbn [id curso matricula].
    split; [| reflexivity].
    unfold deletar_aluno.
    rewrite (get_aluno_last db (mkAluno (next_id db) n e _ _))
      by apply next_id_above.
    rewrite Hf. cbn [fst id].
    rewrite filter_app, filter_fresh by apply next_id_above.
    simpl. rewrite Z.eqb_refl. simpl. apply List.app_nil_r.
Qed.

(** A valid edit whose commit fails (the engine raises, or another
    student holds the e-mail of the form) leaves the table as it was,
    and the reply carries the success message, flashed before the
    commit, followed by the error message. *)
Theorem editar_aluno_commit_falho (env : Env) (k : Z) (req : Request) (db : DB)
  (aluno : Aluno) :
  get_aluno db k = Some aluno ->
  method req = POST ->
  Py.strip (form_get_default (form req) "nome" "") <> "" ->
  Py.strip (form_get_default (form req) "email" "") <> "" ->
  curso_valido (curso_pedido req) = true ->
  (fault env <> None \/
   exists b, In b db /\ id b <> id aluno /\
             email b = Py.strip (form_get_default (form req) "email" "")) ->
  fst (editar_aluno env k req db) = db /\
  exists ok e,
    flashes (snd (editar_aluno env k req db))
    = [("success", ok); ("error", "Erro ao atualizar aluno: " ++ e)].
Proof.
  intros Hg Hm Hn He Hv Hfail. unfold editar_aluno. rewrite Hg, Hm.
  fold (curso_pedido req).
  apply String.eqb_neq in Hn, He.
  assert (Hc : String.eqb (curso_pedido req) "" = false).
  { destruct (curso_pedido req); [discriminate Hv | reflexivity]. }
  rewrite Hn, He, Hc, Hv. cbn [orb negb].
  match goal with |- context [update_commit env db ?a] => set (novo := a) end.
  assert (Hid : id novo = id aluno) by (subst novo; destruct (negb _); reflexivity).
  assert (Hem : email novo = Py.strip (form_get_default (form req) "email" ""))
    by (subst novo; destruct (negb _); reflexivity).
  assert (Hu : exists e, update_commit env db novo = inr e).
  { unfold update_commit. destruct (fault env) as [e|] eqn:Ef; eauto.
    destruct Hfail as [Hf | (b & Hin & Hne & Hb)]; [congruence |].
    destruct (unique_ok_update db novo) eqn:Eu; eauto.
    unfold unique_ok_update in Eu. rewrite forallb_forall in Eu.
    specialize (Eu b Hin). rewrite Hid, Hem, Hb, String.eqb_refl in Eu.
    apply Z.eqb_neq in Hne. rewrite Hne in Eu. discriminate. }
  destruct Hu as (e & ->). cbn [fst snd flashes]. eauto.
Qed.

(** An edit touches one student only: the keys of the table stay as
    they are, in their order, and every row of another student is still
    there; and when the form keeps the course of the student, the row
    read back after the edit has the course and the matriculation of
    before. *)
Theorem editar_aluno_preserva (env : Env) (k : Z) (req : Request) (db : DB) :
  let db' := fst (editar_aluno env k req db) in
  map id db' = map id db /\
  (forall b, In b db -> id b <> k -> In b db') /\
  (forall aluno a',
     get_aluno db k = Some aluno ->
     curso_pedido req = curso aluno ->
     get_aluno db' k = Some a' ->
     curso a' = curso aluno /\ matricula a' = matricula aluno).
Proof.
  cbv zeta.
  destruct (editar_aluno_cases env k req db)
    as [E | (aluno & novo & Hg & Hid & Hn & E)].
  - rewrite E. split; [reflexivity | split; [auto |]].
    intros aluno a' Hg _ Hg'. rewrite Hg in Hg'. inversion Hg'. auto.
  - split; [| split].
    + rewrite E, map_map. apply map_ext_in. intros r _.
      destruct (id r =? id novo) eqn:Er; auto.
      apply Z.eqb_eq in Er. congruence.
    + intros b Hin Hne. rewrite E. apply in_map_iff. exists b. split; auto.
      destruct (get_aluno_In _ _ _ Hg) as [_ Hk].
      destruct (id b =? id novo) eqn:Er; auto.
      apply Z.eqb_eq in Er. congruence.
    + intros aluno0 a' Hg0 Hc Hg'.
      rewrite Hg in Hg0. inversion Hg0; subst aluno0. clear Hg0.
      revert E Hg'. unfold editar_aluno. rewrite Hg.
      destruct (method req); [intros _ Hg'; cbn [fst] in Hg'; rewrite Hg in Hg'; inversion Hg'; subst; auto |].
      cbv zeta. unfold curso_pedido in Hc. rewrite Hc, String.eqb_refl.
      destruct (_ || _); [intros _ Hg'; cbn [fst] in Hg'; rewrite Hg in Hg'; inversion Hg'; subst; auto |].
      destruct (negb (curso_valido _));
        [intros _ Hg'; cbn [fst] in Hg'; rewrite Hg in Hg'; inversion Hg'; subst; auto |].
      cbn [negb]. unfold update_commit.
      destruct (fault env); [intros _ Hg'; cbn [fst] in Hg'; rewrite Hg in Hg'; inversion Hg'; subst; auto |].
      destruct (unique_ok_update _ _);
        [| intros _ Hg'; cbn [fst] in Hg'; rewrite Hg in Hg'; inversion Hg'; subst; auto].
      cbn [fst]. intros _ Hg'.
      match type of Hg' with
      | get_aluno (map (fun r => if _ =? id ?n then _ else _) _) _ = _ =>
          rewrite (get_aluno_update db k aluno n Hg eq_refl) in Hg'
      end.
      inversion Hg'. subst a'. auto.
Qed.

End RegistryProperties2.

(* ================================================================= *)
(** * Further properties of the store *)

Section DictFacts2.
Context {K V : Type} (eqb : K -> K -> bool).
Hypothesis eqb_spec : forall a b, eqb a b = true <-> a = b.

Lemma dict_del_absent (d : Dict.t (V := V)) k :
  ~ In k (map fst d) -> Dict.del eqb d k = d.
Proof.
  induction d as [|[k' v'] d IH]; simpl; auto.
  intros H. destruct (eqb k' k) eqn:E.
  - apply eqb_spec in E. exfalso. auto.
  - f_equal. apply IH. tauto.
Qed.

Lemma dict_del_app_last (d : Dict.t) k (v : V) :
  ~ In k (map fst d) -> Dict.del eqb (d ++ [(k, v)])%list k = d.
Proof.
  induction d as [|[k' v'] d IH]; simpl.
  - intros _. assert (E : eqb k k = true) by now apply eqb_spec.
    now rewrite E.
  - intros H. destruct (eqb k' k) eqn:E.
    + apply eqb_spec in E. exfalso. auto.
    + f_equal. apply IH. tauto.
Qed.

(** Setting a key that is absent and deleting it gives the dictionary
    back. *)
Lemma dict_del_set_absent (d : Dict.t) k (v : V) :
  ~ In k (map fst d) -> Dict.del eqb (Dict.set eqb d k v) k = d.
Proof.
  intros H. rewrite (dict_set_absent eqb eqb_spec) by exact H.
  now apply dict_del_app_last.
Qed.


End DictFacts2.

Section CartProperties.
Import Http Loja LojaSpec CartFacts.

(** The quantity an add puts on top of the entry: the one of the form,
    one when the form has none or gives zero or less. *)
Lemma adicionar_ao_carrinho_ok k req st cart q :
  get_cart (session_cart st) = Some cart ->
  match form_get (form req) "quantidade" with
  | Some s => Py.int s
  | None => Some 1
  end = Some q ->
  fst (adicionar_ao_carrinho k req st)
  = mkState (db st)
      (save_cart
         (Dict.set Z.eqb cart k
            (match Dict.get Z.eqb cart k with Some n => n | None => 0 end
             + (if q <=? 0 then 1 else q)))).
Proof.
  intros Ec Eq. unfold adicionar_ao_carrinho. rewrite Ec, Eq. reflexivity.
Qed.


(** Adding a game that is not in the cart and removing it again gives
    back the cart of before, and the tables are not touched. *)
Theorem adicionar_remover (k : Z) (req : Request) (st : State) (cart : Cart)
  (q : Z) :
  get_cart (session_cart st) = Some cart ->
  Dict.get Z.eqb cart k = None ->
  match form_get (form req) "quantidade" with
  | Some s => Py.int s
  | None => Some 1
  end = Some q ->
  let st' := fst (remover_do_carrinho k (fst (adicionar_ao_carrinho k req st))) in
  get_cart (session_cart st') = Some cart /\
  session_cart st' = save_cart cart /\
  db st' = db st.
Proof.
  intros Ec Eg Eq. cbv zeta.
  pose proof (get_cart_NoDup _ _ Ec) as Hnd.
  rewrite (adicionar_ao_carrinho_ok k req st cart q Ec Eq).
  unfold remover_do_carrinho. cbn [session_cart db].
  rewrite get_cart_save_cart by now apply (dict_set_NoDup Z.eqb Zeqb_spec).
  unfold Dict.mem. rewrite (dict_get_set_same Z.eqb Zeqb_spec).
  cbn [fst session_cart db].
  rewrite (dict_del_set_absent Z.eqb Zeqb_spec)
    by now apply (dict_get_None Z.eqb Zeqb_spec).
  split; [now apply get_cart_save_cart | split; reflexivity].
Qed.


End CartProperties.

Module StockFacts.
Import Http Loja LojaSpec CartFacts CheckoutFacts LoopFacts RentalFacts.

(** What the checkout does to the state: nothing, or the order of a
    cart that passed the first loop. *)
Lemma finalizar_compra_cases env req st :
  fst (finalizar_compra env req st) = st \/
  exists cart cliente,
    get_cart (session_cart st) = Some cart /\
    sem_estoque (db st) (jogos_map (db st) cart) cart = None /\
    fault env = None /\
    finalizar_compra env req st
    = (mkState (registrar_pedido env cliente cart (jogos_map (db st) cart) (db st))
               (save_cart []),
       flash_redirect "success" "Compra finalizada com sucesso!" "loja").
Proof.
  unfold finalizar_compra.
  destruct (get_cart (session_cart st)) as [[|kv cart]|] eqn:Ec; auto.
  destruct (method req); auto.
  destruct (form_get (form req) "cliente_id") as [[|a s]|]; auto.
  destruct (Py.int (String a s)); auto.
  destruct (get_cliente (db st) z) as [cliente|]; auto.
  destruct (sem_estoque _ _ _) eqn:Es; auto.
  destruct (fault env) eqn:Ef; auto.
  right. exists (kv :: cart), cliente. auto.
Qed.

(** The tables after the order of a cart that passed the first loop. *)
Lemma registrar_pedido_tables env cliente (cart : Cart) d :
  pk_jogos d ->
  NoDup (map fst cart) ->
  sem_estoque d (jogos_map d cart) cart = None ->
  let d' := registrar_pedido env cliente cart (jogos_map d cart) d in
  jogos d' = map (baixar cart) (jogos d) /\
  locacoes d' = locacoes d /\
  clientes d' = clientes d /\
  List.length (pedidos d') = S (List.length (pedidos d)).
Proof.
  intros Hpk Hnd Es. cbv zeta. unfold registrar_pedido. cbn [Pedido.id].
  assert (Hz : forall k q j, In (k, q) cart ->
                 Dict.get Z.eqb (jogos_map d cart) k = Some j ->
                 0 <= Jogo.copias_total j - q).
  { intros k q j Hin Hg. rewrite sem_estoque_None in Es.
    specialize (Es k q j Hin Hg). unfold copias_disponiveis in Es.
    pose proof (alugados_nonneg d j). lia. }
  rewrite (abater_estoque_sem_clamp_eq _ cart _ _ Hnd Hz).
  pose proof (gravar_jogos_baixar d cart
                (next_id (map Pedido.id (pedidos d))) (itens_pedido d) Hpk Hnd)
    as Hg.
  destruct (abater_estoque_sem_clamp _ cart _ _) as [jm' itens'].
  cbn [fst] in Hg. cbn [jogos locacoes clientes pedidos].
  rewrite length_app. simpl. repeat split; auto. lia.
Qed.

Lemma alugados_same_id d d' j j' :
  locacoes d' = locacoes d -> Jogo.id j' = Jogo.id j ->
  alugados d' j' = alugados d j.
Proof.
  intros Hl Hi. unfold alugados, locacoes_do_jogo. now rewrite Hl, Hi.
Qed.

Lemma baixar_id cart j : Jogo.id (baixar cart j) = Jogo.id j.
Proof. unfold baixar. destruct (Dict.get Z.eqb cart (Jogo.id j)); reflexivity. Qed.

Lemma registrar_pedido_estoque env cliente (cart : Cart) d :
  pk_jogos d ->
  NoDup (map fst cart) ->
  sem_estoque d (jogos_map d cart) cart = None ->
  estoque_ok d ->
  let d' := registrar_pedido env cliente cart (jogos_map d cart) d in
  estoque_ok d' /\ map Jogo.id (jogos d') = map Jogo.id (jogos d).
Proof.
  intros Hpk Hnd Es Hok. cbv zeta.
  destruct (registrar_pedido_tables env cliente cart d Hpk Hnd Es)
    as (Hj & Hl & _ & _).
  split.
  - intros j' Hin. rewrite Hj in Hin. apply in_map_iff in Hin as (j & <- & Hin).
    unfold copias_disponiveis.
    rewrite (alugados_same_id d _ j (baixar cart j) Hl (baixar_id cart j)).
    specialize (Hok j Hin). unfold copias_disponiveis in Hok.
    unfold baixar. destruct (Dict.get Z.eqb cart (Jogo.id j)) as [q|] eqn:Eq;
      [| exact Hok].
    cbn [Jogo.with_copias_total Jogo.copias_total].
    apply (dict_get_In Z.eqb Zeqb_spec) in Eq.
    rewrite sem_estoque_None in Es.
    specialize (Es (Jogo.id j) q j Eq).
    rewrite (jogos_map_line d cart (Jogo.id j) q Hpk Eq) in Es.
    specialize (Es (get_jogo_row d j Hpk Hin)).
    unfold copias_disponiveis in Es. lia.
  - rewrite Hj, map_map. apply map_ext. intros j. apply baixar_id.
Qed.

(** A count does not grow when the written row does not pass the
    test. *)
Lemma conta_gravar_le f loc' rows :
  f loc' = false ->
  (conta f (gravar_locacao loc' rows) <= conta f rows)%nat.
Proof.
  unfold conta. intros Hf. induction rows as [|r rows IH]; simpl; auto.
  destruct (Locacao.id r =? Locacao.id loc').
  - rewrite Hf. destruct (f r); simpl; lia.
  - destruct (f r); simpl; lia.
Qed.

Lemma conta_apagar_le f loc rows :
  (conta f (apagar_locacao loc rows) <= conta f rows)%nat.
Proof.
  unfold conta. induction rows as [|r rows IH]; simpl; auto.
  destruct (negb (Locacao.id r =? Locacao.id loc)); simpl;
    destruct (f r); simpl; lia.
Qed.

Lemma estoque_ok_le d rows :
  estoque_ok d ->
  (forall j, (conta (ocupa j) rows <= conta (ocupa j) (locacoes d))%nat) ->
  estoque_ok (com_locacoes d rows).
Proof.
  intros Hok Hle j Hin. cbn [jogos com_locacoes] in Hin.
  specialize (Hok j Hin). specialize (Hle j).
  rewrite copias_disponiveis_ativas in *. rewrite ativas_conta in *.
  cbn [locacoes com_locacoes]. lia.
Qed.

End StockFacts.

Section StockProperties.
Import Http Loja LojaSpec CartFacts CheckoutFacts LoopFacts RentalFacts StockFacts.
Variable strptime : string -> option date.

(** What the creation of a rental does to the state: nothing, or one
    rental row at the end for a game of the table, which had a copy
    available unless the status of the row is DEVOLVIDO. *)
Lemma cadastrar_locacao_cases env req st :
  fst (cadastrar_locacao strptime env req st) = st \/
  exists jid jogo loc,
    get_jogo (db st) jid = Some jogo /\
    Locacao.jogo_id loc = Jogo.id jogo /\
    (Locacao.status loc = "DEVOLVIDO" \/ 0 < copias_disponiveis (db st) jogo) /\
    fst (cadastrar_locacao strptime env req st)
    = mkState (com_locacoes (db st) (locacoes (db st) ++ [loc])%list)
              (session_cart st).
Proof.
  unfold cadastrar_locacao. destruct (method req); auto. cbv zeta.
  destruct (negb _); auto.
  destruct (Py.int (text (form_get (form req) "cliente_id"))) as [cid|]; auto.
  destruct (Py.int (text (form_get (form req) "jogo_id"))) as [jid|]; auto.
  destruct (get_cliente (db st) cid) as [cliente|]; auto.
  destruct (get_jogo (db st) jid) as [jogo|] eqn:Ej; auto.
  destruct (strptime (text (form_get (form req) "data_retirada"))); auto.
  destruct (if truthy (form_get (form req) "data_devolucao_prevista")
            then _ else _); auto.
  destruct (String.eqb (form_get_default (form req) "status" "ALUGADO") "DEVOLVIDO")
    eqn:Es; cbn [negb andb].
  - destruct (fault env); auto. right.
    refine (ex_intro _ jid (ex_intro _ jogo (ex_intro _ _
              (conj Ej (conj _ (conj _ eq_refl)))))).
    + reflexivity.
    + left. cbn [Locacao.status]. now apply String.eqb_eq.
  - destruct (copias_disponiveis (db st) jogo <=? 0) eqn:Ed; auto.
    destruct (fault env); auto. right.
    refine (ex_intro _ jid (ex_intro _ jogo (ex_intro _ _
              (conj Ej (conj _ (conj _ eq_refl)))))).
    + reflexivity.
    + right. apply Z.leb_gt in Ed. lia.
Qed.

(** What an edit, a return and a deletion do to the state: nothing, or
    the [UPDATE] of a row with the new status, or the [DELETE] of a
    row. *)
Lemma editar_locacao_cases env n req st :
  fst (editar_locacao strptime env n req st) = st \/
  exists loc',
    Locacao.status loc' = form_get_default (form req) "status" "ALUGADO" /\
    fst (editar_locacao strptime env n req st)
    = mkState (com_locacoes (db st) (gravar_locacao loc' (locacoes (db st))))
              (session_cart st).
Proof.
  unfold editar_locacao, commit_locacao.
  destruct (get_locacao (db st) n) as [loc|]; auto.
  destruct (method req); auto. cbv zeta.
  destruct (fault env); [destruct (String.eqb _ _); [destruct (truthy _);
    [destruct (strptime _) |] |]; auto |].
  destruct (String.eqb _ _); [destruct (truthy _); [destruct (strptime _) |] |];
    auto; right; refine (ex_intro _ _ (conj _ eq_refl)); reflexivity.
Qed.

Lemma devolver_locacao_cases env n st :
  fst (devolver_locacao env n st) = st \/
  exists loc',
    Locacao.status loc' = "DEVOLVIDO" /\
    fst (devolver_locacao env n st)
    = mkState (com_locacoes (db st) (gravar_locacao loc' (locacoes (db st))))
              (session_cart st).
Proof.
  unfold devolver_locacao, commit_locacao.
  destruct (get_locacao (db st) n) as [loc|]; auto.
  destruct (String.eqb _ _); auto.
  destruct (fault env); auto. right.
  refine (ex_intro _ _ (conj _ eq_refl)). reflexivity.
Qed.

Lemma deletar_locacao_cases env n st :
  fst (deletar_locacao env n st) = st \/
  exists loc,
    fst (deletar_locacao env n st)
    = mkState (com_locacoes (db st) (apagar_locacao loc (locacoes (db st))))
              (session_cart st).
Proof.
  unfold deletar_locacao.
  destruct (get_locacao (db st) n) as [loc|]; auto.
  destruct (fault env); auto. right. exists loc. reflexivity.
Qed.

Lemma ocupa_status j l :
  Locacao.status l <> "ALUGADO" -> ocupa j l = false.
Proof.
  intros H. unfold ocupa. apply String.eqb_neq in H. rewrite H.
  apply andb_false_r.
Qed.

Lemma adicionar_db k req st : db (fst (adicionar_ao_carrinho k req st)) = db st.
Proof.
  unfold adicionar_ao_carrinho.
  destruct (get_cart (session_cart st)); auto.
  destruct (match form_get (form req) "quantidade" with
            | Some s => Py.int s | None => Some 1 end); reflexivity.
Qed.

Lemma remover_db k st : db (fst (remover_do_carrinho k st)) = db st.
Proof.
  unfold remover_do_carrinho.
  destruct (get_cart (session_cart st)); auto.
  destruct (Dict.mem Z.eqb _ k); reflexivity.
Qed.

Lemma atender_estoque env c st :
  nao_reabre c ->
  pk_jogos (db st) -> estoque_ok (db st) ->
  pk_jogos (db (fst (atender strptime env c st))) /\
  estoque_ok (db (fst (atender strptime env c st))).
Proof.
  intros Hc Hpk Hok. destruct c; simpl atender.
  - now rewrite adicionar_db.
  - now rewrite remover_db.
  - destruct (finalizar_compra_cases env req st)
      as [-> | (cart & cliente & Ec & Es & _ & ->)]; auto.
    cbn [fst db].
    destruct (registrar_pedido_estoque env cliente cart (db st) Hpk
                (get_cart_NoDup _ _ Ec) Es Hok) as [H1 H2].
    split; [| exact H1]. unfold pk_jogos. now rewrite H2.
  - destruct (cadastrar_locacao_cases env req st)
      as [-> | (jid & jogo & loc & Hg & Hj & Hs & ->)]; auto.
    cbn [fst db]. split; [exact Hpk |].
    intros j Hin. cbn [jogos com_locacoes] in Hin.
    pose proof (Hok j Hin) as Hj0.
    rewrite copias_disponiveis_ativas, ativas_app.
    rewrite copias_disponiveis_ativas in Hj0.
    destruct ((Locacao.jogo_id loc =? Jogo.id j)
              && String.eqb (Locacao.status loc) "ALUGADO") eqn:E; [| lia].
    apply andb_true_iff in E as [E1 E2].
    apply Z.eqb_eq in E1. apply String.eqb_eq in E2.
    destruct Hs as [Hs | Hs]; [rewrite E2 in Hs; discriminate |].
    assert (Ej : jogo = j).
    { pose proof (get_jogo_row (db st) j Hpk Hin) as Hr.
      destruct (get_jogo_id _ _ _ Hg) as [Hid _].
      rewrite <- E1, Hj, Hid, Hg in Hr. now inversion Hr. }
    subst jogo. rewrite copias_disponiveis_ativas in Hs. lia.
  - simpl in Hc.
    destruct (editar_locacao_cases env locacao_id req st)
      as [-> | (loc' & Hs & ->)]; auto.
    cbn [fst db]. split; [exact Hpk |].
    apply estoque_ok_le; auto. intros j. apply conta_gravar_le.
    apply ocupa_status. now rewrite Hs.
  - destruct (deletar_locacao_cases env locacao_id st) as [-> | (loc & ->)]; auto.
    cbn [fst db]. split; [exact Hpk |].
    apply estoque_ok_le; auto. intros j. apply conta_apagar_le.
  - destruct (devolver_locacao_cases env locacao_id st)
      as [-> | (loc' & Hs & ->)]; auto.
    cbn [fst db]. split; [exact Hpk |].
    apply estoque_ok_le; auto. intros j. apply conta_gravar_le.
    apply ocupa_status. rewrite Hs. discriminate.
Qed.

(** Stock is never oversold by the cart and the rental routes: when no
    game has more rentals out than copies, it stays so over any
    requests served one after the other, as long as none of them is an
    edit that sets a rental to ALUGADO. *)
Theorem estoque_nunca_negativo (cs : list (Env * Chamada)) (st : State) :
  pk_jogos (db st) ->
  estoque_ok (db st) ->
  Forall (fun ec => nao_reabre (snd ec)) cs ->
  estoque_ok (db (atender_todas strptime cs st)).
Proof.
  intros Hpk Hok Hcs. revert st Hpk Hok.
  induction Hcs as [|[env c] cs Hc _ IH]; intros st Hpk Hok; simpl; auto.
  destruct (atender_estoque env c st Hc Hpk Hok) as [H1 H2].
  now apply IH.
Qed.

(** The edit does not look at the stock: setting a rental that was not
    ALUGADO back to ALUGADO takes one copy of its game from the
    available ones, whatever their number, and leaves the other games
    as they were. *)
Theorem editar_locacao_reabre env n req st loc j :
  pk_locacoes (db st) ->
  get_locacao (db st) n = Some loc ->
  Locacao.status loc <> "ALUGADO" ->
  method req = POST ->
  form_get_default (form req) "status" "ALUGADO" = "ALUGADO" ->
  fault env = None ->
  copias_disponiveis (db (fst (editar_locacao strptime env n req st))) j
  = copias_disponiveis (db st) j
    - (if Locacao.jogo_id loc =? Jogo.id j then 1 else 0).
Proof.
  intros Hpk Hg Hs Hm Hst Hf. unfold editar_locacao, commit_locacao.
  rewrite Hg, Hm. cbv zeta. rewrite Hst, Hf.
  change (String.eqb "ALUGADO" "DEVOLVIDO") with false. cbn [fst db].
  rewrite !copias_disponiveis_ativas, !ativas_conta. cbn [locacoes com_locacoes].
  pose proof (conta_gravar (ocupa j) loc
                (Locacao.with_devolucao loc "ALUGADO" None)
                (locacoes (db st)) Hpk (get_locacao_In _ _ _ Hg) eq_refl) as H.
  rewrite (ocupa_status j loc Hs) in H.
  assert (Ho : ocupa j (Locacao.with_devolucao loc "ALUGADO" None)
               = (Locacao.jogo_id loc =? Jogo.id j)).
  { unfold ocupa. cbn [Locacao.with_devolucao Locacao.jogo_id Locacao.status].
    change (String.eqb "ALUGADO" "ALUGADO") with true. apply andb_true_r. }
  rewrite Ho in H. unfold um in H.
  destruct (Locacao.jogo_id loc =? Jogo.id j); lia.
Qed.

(** A request whose commit fails leaves every table as it was, on each
    of the cart and rental routes; after a checkout that fails so, the
    session cart is also the one of before. *)
Theorem falha_nao_grava env c st e :
  fault env = Some e ->
  db (fst (atender strptime env c st)) = db st /\
  (forall req, c = FinalizarCompra req -> fst (atender strptime env c st) = st).
Proof.
  intros Hf. split.
  - destruct c; simpl atender.
    + apply adicionar_db.
    + apply remover_db.
    + destruct (finalizar_compra_cases env req st)
        as [-> | (cart & cliente & _ & _ & Hn & _)]; [reflexivity | congruence].
    + unfold cadastrar_locacao. rewrite Hf.
      repeat match goal with
             | |- context [match ?x with _ => _ end] => destruct x; try reflexivity
             end.
    + unfold editar_locacao, commit_locacao. rewrite Hf.
      repeat match goal with
             | |- context [match ?x with _ => _ end] => destruct x; try reflexivity
             end.
    + unfold deletar_locacao. rewrite Hf.
      destruct (get_locacao (db st) locacao_id); reflexivity.
    + unfold devolver_locacao, commit_locacao. rewrite Hf.
      destruct (get_locacao (db st) locacao_id); [| reflexivity].
      destruct (String.eqb _ _); reflexivity.
  - intros req ->. simpl atender.
    destruct (finalizar_compra_cases env req st)
      as [H | (cart & cliente & _ & _ & Hn & _)]; [exact H | congruence].
Qed.

End StockProperties.

Section CheckoutProperties.
Import Http Loja LojaSpec CartFacts CheckoutFacts LoopFacts RentalFacts StockFacts.

(** The checkout changes the state on one path only: either the state
    is the one received, or the reply is the success message, and then
    the session cart is empty, one order row was added, and the
    customers and the rentals are as before. *)
Theorem finalizar_compra_so_no_sucesso env req st :
  let r := finalizar_compra env req st in
  fst r = st \/
  (snd r = flash_redirect "success" "Compra finalizada com sucesso!" "loja" /\
   session_cart (fst r) = [] /\
   List.length (pedidos (db (fst r))) = S (List.length (pedidos (db st))) /\
   clientes (db (fst r)) = clientes (db st) /\
   locacoes (db (fst r)) = locacoes (db st)).
Proof.
  cbv zeta.
  destruct (finalizar_compra_cases env req st)
    as [H | (cart & cliente & Ec & Es & _ & ->)]; [now left | right].
  cbn [fst snd db session_cart]. unfold registrar_pedido.
  destruct (abater_estoque _ cart _ _) as [jm' itens'].
  cbn [pedidos clientes locacoes]. rewrite length_app. simpl.
  repeat split; auto. lia.
Qed.

End CheckoutProperties.

Section GameProperties.
Import Http Loja LojaSpec CartFacts CheckoutFacts RentalFacts.

Lemma loja_next_id_above ids : Forall (fun i => i < next_id ids) ids.
Proof.
  unfold next_id. induction ids as [|i ids IH]; constructor; cbn [fold_right].
  - lia.
  - eapply Forall_impl; [| exact IH]. cbv beta. intros; lia.
Qed.

Lemma truthy_text o : truthy o = true -> text o <> "".
Proof. destruct o as [[|a s]|]; simpl; congruence. Qed.

(** A game enters the table through [cadastrar_jogo] only with at
    least one copy: the handler leaves the state as it was, or adds one
    row at the end, with a key above every key of the table, a title
    that is not empty and a total of copies of one or more; the other
    tables and the session cart are not touched. *)
Theorem cadastrar_jogo_copias_positivas env req st :
  let st' := fst (cadastrar_jogo env req st) in
  st' = st \/
  exists jogo,
    st' = mkState (com_jogos (db st) (jogos (db st) ++ [jogo])%list)
                  (session_cart st) /\
    0 < Jogo.copias_total jogo /\
    Jogo.titulo jogo <> "" /\
    Forall (fun r => Jogo.id r < Jogo.id jogo) (jogos (db st)).
Proof.
  cbv zeta. unfold cadastrar_jogo. destruct (method req); auto. cbv zeta.
  destruct (truthy (form_get (form req) "titulo")) eqn:Et; auto.
  cbn [andb].
  destruct (negb _); auto.
  destruct (Py.int (text (form_get (form req) "ano_lancamento"))); auto.
  destruct (Py.int (text (form_get (form req) "copias_total"))) as [c|]; auto.
  destruct (c <=? 0) eqn:Ec; auto.
  destruct (fault env); auto.
  right. eexists. split; [reflexivity |]. cbn [Jogo.copias_total Jogo.titulo Jogo.id].
  split; [apply Z.leb_gt in Ec; lia |].
  split; [now apply truthy_text |].
  rewrite <- (Forall_map Jogo.id (fun i => i < _)). apply loja_next_id_above.
Qed.

(** After the [UPDATE] of a game, the query by key returns the written
    row. *)
Lemma get_jogo_gravar d k jogo jogo' :
  get_jogo d k = Some jogo ->
  Jogo.id jogo' = Jogo.id jogo ->
  get_jogo (com_jogos d (gravar_jogo jogo' (jogos d))) k = Some jogo'.
Proof.
  unfold get_jogo, gravar_jogo. cbn [jogos com_jogos].
  intros H Hid.
  assert (En : Jogo.id jogo' = k).
  { apply find_some in H as [_ H]. apply Z.eqb_eq in H. congruence. }
  rewrite En. clear Hid.
  induction (jogos d) as [|r rows IH]; simpl in *; [discriminate |].
  destruct (Jogo.id r =? k) eqn:E; simpl.
  - rewrite En, Z.eqb_refl. reflexivity.
  - rewrite E. auto.
Qed.

(** [editar_jogo] does not repeat the check of [cadastrar_jogo]: with
    the four texts in the form, numbers that parse and a commit that
    succeeds, the game read back has the total of the form, be it
    zero or negative, and its available copies are that total minus its
    rentals out. *)
Theorem editar_jogo_aceita_qualquer_total env k req st jogo t g p d sa ano sc n :
  get_jogo (db st) k = Some jogo ->
  method req = POST ->
  form_get (form req) "titulo" = Some t ->
  form_get (form req) "genero" = Some g ->
  form_get (form req) "plataformas" = Some p ->
  form_get (form req) "desenvolvedora" = Some d ->
  form_get (form req) "ano_lancamento" = Some sa ->
  Py.int sa = Some ano ->
  form_get (form req) "copias_total" = Some sc ->
  Py.int sc = Some n ->
  fault env = None ->
  let d' := db (fst (editar_jogo env k req st)) in
  let jogo' := Jogo.mk (Jogo.id jogo) t g ano p d n in
  get_jogo d' k = Some jogo' /\
  copias_disponiveis d' jogo' = n - Z.of_nat (ativas (db st) jogo).
Proof.
  intros Hg Hm Ht Hge Hp Hd Hsa Ha Hsc Hn Hf. cbv zeta.
  unfold editar_jogo. rewrite Hg, Hm. cbv zeta.
  rewrite Hsa, Ha, Hsc, Hn, Hf, Ht, Hge, Hp, Hd. cbn [fst db].
  split.
  - now apply get_jogo_gravar with (jogo := jogo).
  - rewrite copias_disponiveis_ativas. reflexivity.
Qed.

End GameProperties.

(** ** The further properties at the worked examples *)

Section Witnesses2.
Import Http Loja LojaSpec Exemplos FaculdadeSpec.

Ltac chaves_distintas :=
  repeat (constructor; [simpl; intuition discriminate |]); constructor.

Lemma pk_locacoes_alugada : pk_locacoes (db loja_alugada).
Proof. unfold pk_locacoes. simpl. chaves_distintas. Defined.

Lemma registro_bem_formado_witness :
  bem_formado dupla /\
  bem_formado (Faculdade.atender_todas pedidos_do_registro dupla).
Proof.
  assert (H : bem_formado dupla).
  { unfold bem_formado, dupla.
    repeat constructor; simpl; try (exists 1; reflexivity). }
  split; [exact H |].
  exact (registro_bem_formado pedidos_do_registro dupla H).
Defined.

Lemma gerar_matricula_sem_desvio_witness :
  Py.startswith "GEC2" "GEC" = true /\
  exists n,
    "GEC2" = "GEC" ++ Py.str n /\
    Py.int (Py.slice_from 3 "GEC2") = Some n /\
    Faculdade.gerar_matricula turma_travada "GEC" = "GEC" ++ Py.str (n + 1).
Proof.
  apply (gerar_matricula_sem_desvio turma_travada "GEC"
           (Faculdade.mkAluno 2 "Bia" "bia@inatel.br" "GEC" "GEC2")).
  - unfold bem_formado, turma_travada.
    repeat constructor; simpl; [exists 3 | exists 2]; reflexivity.
  - reflexivity.
Defined.

Lemma alocador_travado_witness :
  Faculdade.atender_todas pedidos_que_travam [] = turma_travada /\
  Faculdade.registrar_todos
    [matricular "Caio" "caio@inatel.br" "GEC";
     matricular "Duda" "duda@inatel.br" " gec "] turma_travada
  = turma_travada.
Proof.
  split; [vm_compute; reflexivity |].
  apply (alocador_travado turma_travada "GEC").
  - exists (Faculdade.mkAluno 1 "Ana" "ana@inatel.br" "GEC" "GEC3").
    split; [simpl; auto | vm_compute; reflexivity].
  - repeat constructor.
Defined.

Lemma matricula_reutilizada_witness :
  fst (Faculdade.deletar_aluno (Faculdade.mkEnv None) 2
         (fst (Faculdade.novo_aluno (Faculdade.mkEnv None)
                 (snd (matricular "Caio" "caio@inatel.br" "GEC")) turma)))
  = turma /\
  Faculdade.gerar_matricula turma "GEC" = "GEC1".
Proof.
  apply (matricula_reutilizada (Faculdade.mkEnv None) (Faculdade.mkEnv None)
           (snd (matricular "Caio" "caio@inatel.br" "GEC")) turma
           (Faculdade.mkAluno 2 "Caio" "caio@inatel.br" "GEC" "GEC1")).
  - vm_compute. reflexivity.
  - reflexivity.
Defined.

Lemma editar_aluno_commit_falho_witness :
  fst (Faculdade.editar_aluno (Faculdade.mkEnv None) 2
         (snd (matricular "Caio" "bia@inatel.br" "GEC")) dupla) = dupla /\
  exists ok e,
    flashes (snd (Faculdade.editar_aluno (Faculdade.mkEnv None) 2
                    (snd (matricular "Caio" "bia@inatel.br" "GEC")) dupla))
    = [("success", ok); ("error", "Erro ao atualizar aluno: " ++ e)].
Proof.
  apply (editar_aluno_commit_falho (Faculdade.mkEnv None) 2
           (snd (matricular "Caio" "bia@inatel.br" "GEC")) dupla
           (Faculdade.mkAluno 2 "Caio" "caio@inatel.br" "GEC" "GEC1")).
  - reflexivity.
  - reflexivity.
  - vm_compute. discriminate.
  - vm_compute. discriminate.
  - reflexivity.
  - right. exists (Faculdade.mkAluno 1 "Bia" "bia@inatel.br" "GEA" "GEA1").
    split; [simpl; auto |]. split; [simpl; discriminate | reflexivity].
Defined.


Lemma adicionar_remover_witness :
  let st' :=
    fst (remover_do_carrinho 7
           (fst (adicionar_ao_carrinho 7 (post [("quantidade", "5")])
                                       loja_com_estoque))) in
  get_cart (session_cart st') = Some [(1, 2); (2, 1)] /\
  session_cart st' = save_cart [(1, 2); (2, 1)] /\
  db st' = db loja_com_estoque.
Proof.
  apply (adicionar_remover 7 (post [("quantidade", "5")]) loja_com_estoque
           [(1, 2); (2, 1)] 5).
  - reflexivity.
  - reflexivity.
  - reflexivity.
Defined.


Lemma estoque_ok_com_estoque : estoque_ok (db loja_com_estoque).
Proof.
  intros j [<- | [<- | []]]; vm_compute; discriminate.
Defined.

Lemma estoque_nunca_negativo_witness :
  estoque_ok (db loja_com_estoque) /\
  estoque_ok
    (db (atender_todas strptime pedidos_sem_reabrir loja_com_estoque)).
Proof.
  split; [exact estoque_ok_com_estoque |].
  apply (estoque_nunca_negativo strptime pedidos_sem_reabrir loja_com_estoque).
  - exact pk_jogos_com_estoque.
  - exact estoque_ok_com_estoque.
  - unfold pedidos_sem_reabrir.
    repeat constructor; simpl; discriminate.
Defined.

Lemma editar_locacao_reabre_witness :
  copias_disponiveis (db loja_alugada) celeste = 0 /\
  copias_disponiveis
    (db (fst (editar_locacao strptime hoje 2 (post [("status", "ALUGADO")])
                             loja_alugada))) celeste
  = 0 - 1.
Proof.
  split; [reflexivity |].
  exact (editar_locacao_reabre strptime hoje 2 (post [("status", "ALUGADO")])
           loja_alugada (aluguel 2 1 "DEVOLVIDO" (Some 739050)) celeste
           pk_locacoes_alugada eq_refl
           (fun H => ltac:(discriminate H)) eq_refl eq_refl eq_refl).
Defined.

Lemma falha_nao_grava_witness :
  db (fst (atender strptime falha (DevolverLocacao 1) loja_alugada))
  = db loja_alugada /\
  fst (atender strptime falha (FinalizarCompra compra) loja_com_estoque)
  = loja_com_estoque.
Proof.
  split.
  - exact (proj1 (falha_nao_grava strptime falha (DevolverLocacao 1) loja_alugada
                    "OperationalError" eq_refl)).
  - exact (proj2 (falha_nao_grava strptime falha (FinalizarCompra compra)
                    loja_com_estoque "OperationalError" eq_refl)
                 compra eq_refl).
Defined.

Lemma editar_jogo_aceita_qualquer_total_witness :
  let d' := db (fst (editar_jogo hoje 1 edicao_de_jogo loja_alugada)) in
  let jogo' := Jogo.mk 1 "Celeste" "Plataforma" 2018 "PC" "EXOK" (-3) in
  get_jogo d' 1 = Some jogo' /\
  copias_disponiveis d' jogo' = -3 - Z.of_nat (ativas (db loja_alugada) celeste).
Proof.
  exact (editar_jogo_aceita_qualquer_total hoje 1 edicao_de_jogo loja_alugada
           celeste "Celeste" "Plataforma" "PC" "EXOK" "2018" 2018 "-3" (-3)
           eq_refl eq_refl eq_refl eq_refl eq_refl eq_refl eq_refl eq_refl
           eq_refl eq_refl eq_refl).
Defined.

Lemma devolver_locacao_libera_witness :
  copias_disponiveis (db (fst (devolver_locacao hoje 1 loja_alugada))) celeste
  = copias_disponiveis (db loja_alugada) celeste + 1.
Proof.
  exact (devolver_locacao_libera hoje 1 loja_alugada
           (aluguel 1 1 "ALUGADO" None) celeste
           pk_locacoes_alugada eq_refl eq_refl eq_refl).
Defined.

Lemma deletar_locacao_libera_witness :
  copias_disponiveis (db (fst (deletar_locacao hoje 1 loja_alugada))) celeste
  = copias_disponiveis (db loja_alugada) celeste + 1.
Proof.
  exact (deletar_locacao_libera hoje 1 loja_alugada
           (aluguel 1 1 "ALUGADO" None) celeste
           pk_locacoes_alugada eq_refl eq_refl eq_refl).
Defined.

Lemma devolver_locacao_idempotente_witness :
  fst (devolver_locacao falha 1 (fst (devolver_locacao hoje 1 loja_alugada)))
  = fst (devolver_locacao hoje 1 loja_alugada).
Proof.
  exact (devolver_locacao_idempotente hoje falha 1 loja_alugada eq_refl).
Defined.

End Witnesses2.
